(** * jquants-daily-report: cache, fetcher, weekly aggregator and analyzers

    A shallow embedding of the Python sources of [jquants_report] and the
    properties of its specification that were checked against them.

    Conventions of the embedding.
    - A pandas column of floats is a list of [cell]s: a finite value is an
      exact rational, and the IEEE special values that pandas produces on
      a division by zero ([inf], [-inf]) or on missing data ([NaN], the
      null of a float column) are constructors of their own.
    - A [datetime] is its number of microseconds since the epoch, a
      [date] its proleptic Gregorian ordinal ([date.toordinal()]).
    - A Python exception is a value of [Py.exn]; code that can raise
      returns a [Py.outcome], and [try]/[except] is [Py.try_except].
    - The SQLite table [cache_entries], whose column [cache_key] is
      UNIQUE, is a finite map from keys to rows. *)

From stdpp Require Import gmap strings list sorting.
From Stdlib Require Import QArith Qminmax ZArith Lia.

Open Scope Z_scope.
Set Warnings "-register-all".

(** ** Python exceptions *)

Module Py.

Inductive exn : Type :=
| AttributeError
| ValueError
| JSONDecodeError
| KeyError
| UnpicklingError
| RequestException
| APIError
| NotFoundError
| RateLimitError
| AuthenticationError
| OverflowError.

Inductive outcome (A : Type) : Type :=
| Ret (a : A)
| Raise (e : exn).
Arguments Ret {A} a.
Arguments Raise {A} e.

Definition bind {A B} (m : outcome A) (k : A -> outcome B) : outcome B :=
  match m with
  | Ret a => k a
  | Raise e => Raise e
  end.

(** [try: body except Exception as e: handler e] *)
Definition try_except {A} (body : outcome A) (handler : exn -> outcome A)
  : outcome A :=
  match body with
  | Ret a => Ret a
  | Raise e => handler e
  end.

Definition raises {A} (m : outcome A) : Prop :=
  match m with
  | Ret _ => False
  | Raise _ => True
  end.

(** Class hierarchy of client.py and auth.py: [RateLimitError] and
    [NotFoundError] derive from [APIError]; [AuthenticationError]
    derives from [Exception] only. *)
Definition is_APIError (e : exn) : bool :=
  match e with
  | APIError | NotFoundError | RateLimitError => true
  | _ => false
  end.

(** [requests.JSONDecodeError] derives from [RequestException] and
    from [ValueError]. *)
Definition is_RequestException (e : exn) : bool :=
  match e with
  | RequestException | JSONDecodeError => true
  | _ => false
  end.

Definition is_ValueError (e : exn) : bool :=
  match e with
  | ValueError | JSONDecodeError => true
  | _ => false
  end.

End Py.

#[export] Instance outcome_ret : MRet Py.outcome := @Py.Ret.
#[export] Instance outcome_bind : MBind Py.outcome :=
  fun A B k m => Py.bind m k.

(** ** Tables *)

(** What the cache and the fetcher need of a [pd.DataFrame]:
    [DataFrame()], [df.empty] and [len(df)]. *)
Class Frame (T : Type) : Type := {
  frame_new : T;
  frame_empty : T -> bool;
  frame_len : T -> nat;
  frame_new_empty : frame_empty frame_new = true
}.

(** A table whose columns are fixed by the row type [R]. *)
#[export] Instance list_Frame (R : Type) : Frame (list R) := {|
  frame_new := [];
  frame_empty := fun df => match df with [] => true | _ => false end;
  frame_len := length;
  frame_new_empty := eq_refl
|}.

(** A table with a dynamic set of columns: the names in [columns] are
    the columns it has, and a field of a row whose column is not listed is
    never read. [df.empty] holds when either axis has length zero. *)
Record Table (R : Type) : Type := MkTable {
  columns : list string;
  rows : list R
}.
Arguments MkTable {R}.
Arguments columns {R}.
Arguments rows {R}.

#[export] Instance Table_Frame (R : Type) : Frame (Table R) := {|
  frame_new := MkTable [] [];
  frame_empty := fun df =>
    match columns df, rows df with
    | [], _ | _, [] => true
    | _, _ => false
    end;
  frame_len := fun df => length (rows df);
  frame_new_empty := eq_refl
|}.

(** [col in df.columns] *)
Definition has_column {R} (col : string) (df : Table R) : bool :=
  bool_decide (col ∈ columns df).

(** ** data/cache.py *)

Module CacheManager.

(** The BLOB column [data]: either the pickle of a table, as written by
    [_serialize_dataframe], or bytes that [pd.read_pickle] rejects. *)
Inductive blob (T : Type) : Type :=
| Pickled (df : T)
| Unreadable (raw : list Byte.byte).
Arguments Pickled {T} df.
Arguments Unreadable {T} raw.

Record entry (T : Type) : Type := Entry {
  data : blob T;
  row_count : nat;
  created_at : Z;
  expires_at : Z
}.
Arguments Entry {T}.
Arguments data {T}.
Arguments row_count {T}.
Arguments created_at {T}.
Arguments expires_at {T}.

(** [self.default_ttl_hours], at the default of the constructor. *)
Definition default_ttl_hours : Z := 24.

(** [timedelta(hours=ttl)] in microseconds. *)
Definition hours (ttl : Z) : Z := ttl * 3600000000.

Section ops.
Context {T : Type} `{Frame T}.

Definition _serialize_dataframe (df : T) : Py.outcome (blob T) :=
  Py.Ret (Pickled df).

Definition _deserialize_dataframe (b : blob T) : Py.outcome T :=
  match b with
  | Pickled df => Py.Ret df
  | Unreadable _ => Py.Raise Py.UnpicklingError
  end.

Definition _sanitize_key (key : string) : string := key.

Definition _remove_entry (key : string) (db : gmap string (entry T))
  : gmap string (entry T) :=
  delete key db.

(** [get], reading the clock at [now]; returns the result and the
    table [cache_entries] after the call. *)
Definition get (now : Z) (key : string) (db : gmap string (entry T))
  : option T * gmap string (entry T) :=
  let sanitized_key := _sanitize_key key in
  match db !! sanitized_key with
  | None => (None, db)
  | Some row =>
      if bool_decide (expires_at row <= now)
      then (None, _remove_entry sanitized_key db)
      else
        match _deserialize_dataframe (data row) with
        | Py.Ret df => (Some df, db)
        | Py.Raise _ => (None, _remove_entry sanitized_key db)
        end
  end.

Definition set (now : Z) (key : string) (df : T) (ttl_hours : option Z)
  (db : gmap string (entry T)) : gmap string (entry T) :=
  if frame_empty df then db
  else
    let sanitized_key := _sanitize_key key in
    let ttl := match ttl_hours with
               | Some h => h
               | None => default_ttl_hours
               end in
    let created := now in
    let expires := created + hours ttl in
    let write :=
      serialized_data ← _serialize_dataframe df;
      mret (<[sanitized_key :=
                Entry serialized_data (frame_len df) created expires]> db) in
    match write with
    | Py.Ret db' => db'
    | Py.Raise _ => db
    end.

Definition invalidate (key : string) (db : gmap string (entry T))
  : gmap string (entry T) :=
  _remove_entry (_sanitize_key key) db.

Definition clear_all (db : gmap string (entry T)) : gmap string (entry T) :=
  ∅.

End ops.

Section maintenance.
Context {T : Type} `{Frame T}.

(** [cleanup_expired]: the number of rows with [expires_at < now] and
    the table without them. SQLite compares the two ISO timestamps as
    text, which orders [datetime.isoformat()] strings as the instants
    they denote. *)
Definition cleanup_expired (now : Z) (db : gmap string (entry T))
  : nat * gmap string (entry T) :=
  let count := size (filter (fun kv => expires_at kv.2 < now) db) in
  (count, filter (fun kv => ¬ (expires_at kv.2 < now)) db).

(** A call of one of the public methods, with the time it reads. *)
Inductive call : Type :=
| Call_get (now : Z) (key : string)
| Call_set (now : Z) (key : string) (df : T) (ttl_hours : option Z)
| Call_invalidate (key : string)
| Call_clear_all
| Call_cleanup_expired (now : Z).

Definition step (db : gmap string (entry T)) (c : call)
  : gmap string (entry T) :=
  match c with
  | Call_get now key => (get now key db).2
  | Call_set now key df ttl_hours => set now key df ttl_hours db
  | Call_invalidate key => invalidate key db
  | Call_clear_all => clear_all db
  | Call_cleanup_expired now => (cleanup_expired now db).2
  end.

(** The table after a sequence of calls on a new database. *)
Definition run (calls : list call) : gmap string (entry T) :=
  foldl step ∅ calls.

(** A row as [set] writes it. *)
Definition written (e : entry T) : Prop :=
  ∃ df, data e = Pickled df ∧ frame_empty df = false
        ∧ row_count e = frame_len df.

End maintenance.

End CacheManager.

(** ** Float columns *)

Module Float.

Inductive cell : Type :=
| Num (q : Q)
| PInf
| NInf
| NaN.

Definition Qltb (x y : Q) : bool := negb (Qle_bool y x).

(** [Series.notna()] *)
Definition notna (c : cell) : bool :=
  match c with
  | NaN => false
  | _ => true
  end.


Definition lt0 (c : cell) : bool :=
  match c with
  | Num q => Qltb q 0
  | NInf => true
  | _ => false
  end.

Definition eq0 (c : cell) : bool :=
  match c with
  | Num q => Qeq_bool q 0
  | _ => false
  end.

(** [a <= b] on values that are not [NaN]. *)
Definition leb (a b : cell) : bool :=
  match a, b with
  | NaN, _ | _, NaN => false
  | NInf, _ => true
  | _, PInf => true
  | Num x, Num y => Qle_bool x y
  | _, _ => false
  end.

Definition neg (a : cell) : cell :=
  match a with
  | Num x => Num (- x)
  | PInf => NInf
  | NInf => PInf
  | NaN => NaN
  end.

Definition sub (a b : cell) : cell :=
  match a, b with
  | NaN, _ | _, NaN => NaN
  | Num x, Num y => Num (x - y)
  | PInf, PInf | NInf, NInf => NaN
  | PInf, _ => PInf
  | NInf, _ => NInf
  | Num _, PInf => NInf
  | Num _, NInf => PInf
  end.

Definition mul (a b : cell) : cell :=
  match a, b with
  | NaN, _ | _, NaN => NaN
  | Num x, Num y => Num (x * y)
  | Num x, i | i, Num x =>
      if Qeq_bool x 0 then NaN
      else if Qltb 0 x then i else neg i
  | PInf, PInf | NInf, NInf => PInf
  | _, _ => NInf
  end.

(** Float division as numpy does it: a zero divisor gives an infinity
    or [NaN], never an exception. (The sign of a negative zero is not
    modelled.) *)
Definition div (a b : cell) : cell :=
  match a, b with
  | NaN, _ | _, NaN => NaN
  | Num x, Num y =>
      if Qeq_bool y 0 then
        if Qeq_bool x 0 then NaN
        else if Qltb 0 x then PInf else NInf
      else Num (x / y)
  | Num _, _ => Num 0
  | i, Num y => if Qltb y 0 then neg i else i
  | _, _ => NaN
  end.

Definition add (a b : cell) : cell :=
  match a, b with
  | NaN, _ | _, NaN => NaN
  | Num x, Num y => Num (x + y)
  | PInf, NInf | NInf, PInf => NaN
  | PInf, _ | _, PInf => PInf
  | NInf, _ | _, NInf => NInf
  end.

(** [a < b]: false as soon as one side is [NaN]. *)
Definition ltb (a b : cell) : bool :=
  match a, b with
  | NaN, _ | _, NaN => false
  | Num x, Num y => Qltb x y
  | NInf, NInf | PInf, _ => false
  | NInf, _ => true
  | Num _, PInf => true
  | Num _, NInf => false
  end.

(** [float(n)] of a count. *)
Definition of_nat (n : nat) : cell := Num (inject_Z (Z.of_nat n)).

(** [Series.dropna()], [Series.sum()] and [Series.mean()], which skip
    the nulls; the mean of no value is [NaN]. *)
Definition dropna (l : list cell) : list cell := filter (fun c => notna c = true) l.

Definition sum (l : list cell) : cell := foldl add (Num 0) (dropna l).

Definition mean (l : list cell) : cell :=
  match dropna l with
  | [] => NaN
  | v => div (foldl add (Num 0) v) (of_nat (length v))
  end.

End Float.

(** ** datetime.date *)

Module Date.

(** [date.min.toordinal()] and [date.max.toordinal()] *)
Definition min_ordinal : Z := 1.
Definition max_ordinal : Z := 3652059.

Definition valid (d : Z) : Prop := min_ordinal <= d <= max_ordinal.

(** [d.weekday()]: Monday is 0, Sunday is 6. *)
Definition weekday (d : Z) : Z := (d + 6) mod 7.

(** [d + timedelta(days=n)] and [d - timedelta(days=n)] *)
Definition add_days (d n : Z) : Py.outcome Z :=
  let r := d + n in
  if bool_decide (min_ordinal <= r <= max_ordinal) then Py.Ret r
  else Py.Raise Py.OverflowError.

Definition sub_days (d n : Z) : Py.outcome Z := add_days d (- n).

(** Year, month and day of an ordinal (proleptic Gregorian calendar). *)
Definition civil (d : Z) : Z * Z * Z :=
  let z := d + 305 in
  let era := z / 146097 in
  let doe := z - era * 146097 in
  let yoe := (doe - doe / 1460 + doe / 36524 - doe / 146096) / 365 in
  let doy := doe - (365 * yoe + yoe / 4 - yoe / 100) in
  let mp := (5 * doy + 2) / 153 in
  let day := doy - (153 * mp + 2) / 5 + 1 in
  let month := if bool_decide (mp < 10) then mp + 3 else mp - 9 in
  let year := yoe + era * 400 + (if bool_decide (month <= 2) then 1 else 0) in
  (year, month, day).

Definition digit (n : Z) : string :=
  String (Ascii.ascii_of_nat (48 + Z.to_nat (n mod 10))) EmptyString.

Definition pad2 (n : Z) : string := digit (n / 10) +:+ digit n.
Definition pad4 (n : Z) : string :=
  digit (n / 1000) +:+ digit (n / 100) +:+ digit (n / 10) +:+ digit n.

(** [d.strftime("%Y-%m-%d")] *)
Definition strftime (d : Z) : string :=
  let '(y, m, dd) := civil d in
  pad4 y +:+ "-" +:+ pad2 m +:+ "-" +:+ pad2 dd.

End Date.

(** ** data/fetcher.py *)

Module DataFetcher.

(** What a method of the API client can return. *)
Inductive pyobj (T : Type) : Type :=
| PNone
| PFrame (df : T)
| PDict (items : list (string * pyobj T))
| PList (elems : list (pyobj T))
| PScalar (repr : string).
Arguments PNone {T}.
Arguments PFrame {T} df.
Arguments PDict {T} items.
Arguments PList {T} elems.
Arguments PScalar {T} repr.

Definition kwargs : Type := list (string * option string).

(** The attributes of the client object that [getattr] finds. *)
Record client (T : Type) : Type := Client {
  getattr : string -> option (kwargs -> Py.outcome (pyobj T))
}.
Arguments Client {T}.
Arguments getattr {T}.

(** The fetcher, its cache and the wall clock (microseconds). *)
Record state (T : Type) : Type := State {
  cache : gmap string (CacheManager.entry T);
  _last_request_time : Z;
  clock : Z
}.
Arguments State {T}.
Arguments cache {T}.
Arguments _last_request_time {T}.
Arguments clock {T}.

Definition MIN_REQUEST_INTERVAL : Z := 1000000.

(** The ten [fetch_*] methods share one body; an [endpoint] records
    where they differ. *)
Record endpoint : Type := Endpoint {
  cache_key : string;
  method_name : string;
  call_kwargs : kwargs;
  dataset_key : string;
  (** [if isinstance(response, pd.DataFrame): df = response] is there *)
  frame_branch : bool;
  (** the last [else] is [pd.DataFrame([response])], not [pd.DataFrame()] *)
  wrap_other : bool;
  (** [df.rename(columns=column_mapping)] *)
  column_mapping : list (string * string);
  (** [cache.set] is under [if not df.empty:] *)
  guard_empty : bool;
  ttl_hours : Z
}.

Fixpoint assoc {V} (k : string) (items : list (string * V)) : option V :=
  match items with
  | [] => None
  | (k', v) :: rest => if decide (k = k') then Some v else assoc k rest
  end.

Section ops.
Context {T : Type} `{Frame T}.
(** [pd.DataFrame(data)], which raises on data it cannot tabulate, and
    [df.rename(columns=...)]. *)
Variable pd_DataFrame : pyobj T -> Py.outcome T.
Variable rename : list (string * string) -> T -> T.

Definition _rate_limit (st : state T) : state T :=
  let elapsed := clock st - _last_request_time st in
  let now :=
    if bool_decide (elapsed < MIN_REQUEST_INTERVAL)
    then clock st + (MIN_REQUEST_INTERVAL - elapsed)
    else clock st in
  State (cache st) now now.

(** [getattr(self.client, method_name)] applied to the arguments. *)
Definition call_method (cl : client T) (name : string) (kw : kwargs)
  : Py.outcome (pyobj T) :=
  match getattr cl name with
  | None => Py.Raise Py.AttributeError
  | Some method => method kw
  end.

Definition _make_api_call (cl : client T) (name : string) (kw : kwargs)
  (st : state T) : Py.outcome (pyobj T) * state T :=
  let st := _rate_limit st in
  (Py.try_except (call_method cl name kw)
     (fun e => match e with
               | Py.AttributeError => Py.Ret PNone
               | _ => Py.Ret PNone
               end),
   st).

(** The [if isinstance ... elif ... else] chain on the response. *)
Definition to_frame (ep : endpoint) (response : pyobj T) : Py.outcome T :=
  match response with
  | PFrame df =>
      if frame_branch ep then Py.Ret df
      else if wrap_other ep then pd_DataFrame (PList [response])
      else Py.Ret frame_new
  | PDict items =>
      match assoc (dataset_key ep) items with
      | Some v => pd_DataFrame v
      | None =>
          if wrap_other ep then pd_DataFrame (PList [response])
          else Py.Ret frame_new
      end
  | PList _ => pd_DataFrame response
  | _ =>
      if wrap_other ep then pd_DataFrame (PList [response])
      else Py.Ret frame_new
  end.

Definition cache_set (ep : endpoint) (df : T) (st : state T) : state T :=
  State (CacheManager.set (clock st) (cache_key ep) df
           (Some (ttl_hours ep)) (cache st))
        (_last_request_time st) (clock st).

(** The part of a [fetch_*] method under [try:]. *)
Definition process (ep : endpoint) (response : pyobj T) (st : state T)
  : Py.outcome (T * state T) :=
  df ← to_frame ep response;
  let df := match column_mapping ep with
            | [] => df
            | m => rename m df
            end in
  let st :=
    if guard_empty ep
    then (if frame_empty df then st else cache_set ep df st)
    else cache_set ep df st in
  mret (df, st).

Definition fetch (ep : endpoint) (force_refresh : bool) (cl : client T)
  (st : state T) : Py.outcome T * state T :=
  let lookup :=
    if force_refresh then (None, cache st)
    else CacheManager.get (clock st) (cache_key ep) (cache st) in
  let st := State lookup.2 (_last_request_time st) (clock st) in
  match lookup.1 with
  | Some cached_data => (Py.Ret cached_data, st)
  | None =>
      let '(response, st) :=
        _make_api_call cl (method_name ep) (call_kwargs ep) st in
      match response with
      | Py.Raise e => (Py.Raise e, st)
      | Py.Ret PNone => (Py.Ret frame_new, st)
      | Py.Ret response =>
          match Py.try_except (process ep response st)
                  (fun _ => Py.Ret (frame_new, st)) with
          | Py.Ret (df, st) => (Py.Ret df, st)
          | Py.Raise e => (Py.Raise e, st)
          end
      end
  end.

Definition listed_info : endpoint :=
  Endpoint "listed_info" "get_listed_info" [] "info" true true [] true 24.

Definition daily_quotes (target_date : Z) (code : option string)
  : endpoint :=
  let date_str := Date.strftime target_date in
  let key := "daily_quotes_" +:+ date_str in
  let key := match code with
             | None | Some EmptyString => key
             | Some c => key +:+ "_" +:+ c
             end in
  Endpoint key "get_daily_quotes"
    [("date", Some date_str); ("code", code)]
    "daily_quotes" true true [] true 24.

Definition indices (target_date : Z) : endpoint :=
  let date_str := Date.strftime target_date in
  Endpoint ("indices_" +:+ date_str) "get_indices"
    [("date", Some date_str)] "indices" true true [] true 24.

Definition topix (target_date : Z) : endpoint :=
  let date_str := Date.strftime target_date in
  Endpoint ("topix_" +:+ date_str) "get_topix"
    [("date", Some date_str)] "topix" false true [] false 24.

Definition trades_spec (target_date : Z) : endpoint :=
  let date_str := Date.strftime target_date in
  Endpoint ("trades_spec_" +:+ date_str) "get_trades_spec"
    [("date", Some date_str)] "trades_spec" false true [] false 24.

Definition margin_interest (target_date : Z) : endpoint :=
  let date_str := Date.strftime target_date in
  Endpoint ("margin_interest_" +:+ date_str) "get_weekly_margin_trading"
    [("date", Some date_str)] "weekly_margin_interest" true true
    [("MarginBuyingBalance", "MarginBuyBalance");
     ("MarginSellingBalance", "MarginSellBalance");
     ("MarginBuyingNewBalance", "MarginBuyValue");
     ("MarginSellingNewBalance", "MarginSellValue")]
    true 24.

Definition short_selling (target_date : Z) : endpoint :=
  let date_str := Date.strftime target_date in
  Endpoint ("short_selling_" +:+ date_str) "get_short_selling"
    [("date", Some date_str)] "short_selling" true true [] true 24.

Definition statements (code : string) : endpoint :=
  Endpoint ("statements_" +:+ code) "get_statements"
    [("code", Some code)] "statements" false true [] false 24.

Definition announcement : endpoint :=
  Endpoint "announcement" "get_announcement" [] "announcement"
    false true [] false 6.

Definition date_range_quotes (start_date end_date : Z)
  (code : option string) : endpoint :=
  let start_str := Date.strftime start_date in
  let end_str := Date.strftime end_date in
  let key := "quotes_range_" +:+ start_str +:+ "_" +:+ end_str in
  let key := match code with
             | None | Some EmptyString => key
             | Some c => key +:+ "_" +:+ c
             end in
  Endpoint key "get_daily_quotes"
    [("code", code); ("from_date", Some start_str);
     ("to_date", Some end_str)]
    "daily_quotes" true false [] true 24.

(** A call of one of the public [fetch_*] methods. *)
Inductive request : Type :=
| Listed_info (force_refresh : bool)
| Daily_quotes (target_date : Z) (code : option string)
    (force_refresh : bool)
| Indices (target_date : Z) (force_refresh : bool)
| Topix (target_date : Z) (force_refresh : bool)
| Trades_spec (target_date : Z) (force_refresh : bool)
| Margin_interest (target_date : Z) (force_refresh : bool)
| Short_selling (target_date : Z) (force_refresh : bool)
| Statements (code : string) (force_refresh : bool)
| Announcement (force_refresh : bool)
| Date_range_quotes (start_date end_date : Z) (code : option string)
    (force_refresh : bool).

Definition endpoint_of (r : request) : endpoint :=
  match r with
  | Listed_info _ => listed_info
  | Daily_quotes d c _ => daily_quotes d c
  | Indices d _ => indices d
  | Topix d _ => topix d
  | Trades_spec d _ => trades_spec d
  | Margin_interest d _ => margin_interest d
  | Short_selling d _ => short_selling d
  | Statements c _ => statements c
  | Announcement _ => announcement
  | Date_range_quotes a b c _ => date_range_quotes a b c
  end.

Definition force_refresh_of (r : request) : bool :=
  match r with
  | Listed_info f | Daily_quotes _ _ f | Indices _ f | Topix _ f
  | Trades_spec _ f | Margin_interest _ f | Short_selling _ f
  | Statements _ f | Announcement f | Date_range_quotes _ _ _ f => f
  end.

(** The fetch does not find the table in the cache, and then the API
    call raises or returns nothing, or the response cannot be turned
    into a table. *)
Definition fails (ep : endpoint) (force_refresh : bool) (cl : client T)
  (st : state T) : Prop :=
  (if force_refresh then None
   else (CacheManager.get (clock st) (cache_key ep) (cache st)).1) = None
  ∧ match call_method cl (method_name ep) (call_kwargs ep) with
    | Py.Raise _ => True
    | Py.Ret PNone => True
    | Py.Ret response => Py.raises (to_frame ep response)
    end.

Definition fetch_listed_info := fetch listed_info.
Definition fetch_daily_quotes (target_date : Z) (code : option string) :=
  fetch (daily_quotes target_date code).
Definition fetch_indices (target_date : Z) := fetch (indices target_date).
Definition fetch_topix (target_date : Z) := fetch (topix target_date).
Definition fetch_trades_spec (target_date : Z) :=
  fetch (trades_spec target_date).
Definition fetch_margin_interest (target_date : Z) :=
  fetch (margin_interest target_date).
Definition fetch_short_selling (target_date : Z) :=
  fetch (short_selling target_date).
Definition fetch_statements (code : string) := fetch (statements code).
Definition fetch_announcement := fetch announcement.
Definition fetch_date_range_quotes (start_date end_date : Z)
  (code : option string) :=
  fetch (date_range_quotes start_date end_date code).

Definition perform (r : request) (cl : client T) (st : state T)
  : Py.outcome T * state T :=
  match r with
  | Listed_info f => fetch_listed_info f cl st
  | Daily_quotes d c f => fetch_daily_quotes d c f cl st
  | Indices d f => fetch_indices d f cl st
  | Topix d f => fetch_topix d f cl st
  | Trades_spec d f => fetch_trades_spec d f cl st
  | Margin_interest d f => fetch_margin_interest d f cl st
  | Short_selling d f => fetch_short_selling d f cl st
  | Statements c f => fetch_statements c f cl st
  | Announcement f => fetch_announcement f cl st
  | Date_range_quotes a b c f => fetch_date_range_quotes a b c f cl st
  end.

End ops.

(** The names that [getattr] finds on an instance of [JQuantsClient]
    (api/client.py): the attributes set by [__init__] and the methods of
    the class. The names that every Python object has begin with two
    underscores. *)
Definition JQuantsClient_attributes : list string :=
  ["authenticator"; "base_url"; "rate_limit_delay"; "_last_request_time";
   "_enforce_rate_limit"; "_make_request"; "_to_dataframe";
   "get_listed_info"; "get_listed_sections"; "get_daily_quotes";
   "get_prices_am"; "get_financial_statements";
   "get_financial_announcement"; "get_dividend_info"; "get_indices";
   "get_topix_composition"; "get_trades_by_investor_type";
   "get_short_selling"; "get_margin_trading"; "get_market_breakdown";
   "get_weekly_margin_trading"; "get_index_option"; "get_index_futures";
   "get_tdnet_disclosure"; "get_refresh_token"; "clear_cache"].

(** The state in which a fetch that does not find its table in the cache
    calls the API: after the lookup and the wait of [_rate_limit]. *)
Definition at_call {T} `{Frame T} (ep : endpoint) (force_refresh : bool)
  (st : state T) : state T :=
  _rate_limit
    (State
       (if force_refresh then cache st
        else (CacheManager.get (clock st) (cache_key ep) (cache st)).2)
       (_last_request_time st) (clock st)).

(** [cl] is an instance of [JQuantsClient], whatever its methods do. *)
Definition is_JQuantsClient {T} (cl : client T) : Prop :=
  ∀ name, is_Some (getattr cl name) →
          name ∈ JQuantsClient_attributes ∨ String.prefix "__" name = true.

End DataFetcher.

(** ** Sorting and grouping, as pandas does them *)

Module Pandas.

Section sort.
Context {A : Type} (leb : A -> A -> bool).

(** Stable insertion: [x] goes before the first element that is not
    smaller, so rows with equal keys keep their order of arrival. *)
Fixpoint insert (x : A) (l : list A) : list A :=
  match l with
  | [] => [x]
  | y :: l' => if leb x y then x :: l else y :: insert x l'
  end.

(** [sort_values] (a stable sort). *)
Fixpoint sort_values (l : list A) : list A :=
  match l with
  | [] => []
  | x :: l' => insert x (sort_values l')
  end.
End sort.

Definition str_leb (a b : string) : bool := bool_decide (String.le a b).

(** The keys of [groupby(col)]: the distinct values, sorted. *)
Definition group_keys (keys : list string) : list string :=
  sort_values str_leb (remove_dups keys).

(** [df.tail(n)] and [df.head(n)] for any integer [n]. *)
Definition tail {A} (n : Z) (l : list A) : list A :=
  if bool_decide (0 <= n) then drop (length l - Z.to_nat n)%nat l
  else drop (Z.to_nat (- n)) l.

Definition nfirst {A} (n : Z) (l : list A) : list A := take (Z.to_nat n) l.

(** Sum and mean of a float column that has no null. *)
Definition Qsum (l : list Q) : Q := foldr Qplus 0%Q l.

End Pandas.

(** ** data/weekly_aggregator.py *)

Module WeeklyDataAggregator.

(** The company columns, which a daily table may lack: a missing
    column and a null cell are both [None]. *)
Record CompanyInfo : Type := Info {
  CompanyName : option string;
  Sector33Code : option string;
  Sector33CodeName : option string
}.

(** A row of a daily quote table (DailyQuoteRow of the data model): the
    price, volume and turnover cells are numbers. The aggregations
    [first], [last], [max], [min] and [sum] of pandas skip null cells,
    which these rows do not have. *)
Record DailyQuote : Type := Quote {
  Code : string;
  Open : Q;
  High : Q;
  Low : Q;
  Close : Q;
  Volume : Q;
  TurnoverValue : Q;
  Company : CompanyInfo
}.

(** A daily row after [df["TradeDate"] = day]. *)
Record TradedQuote : Type := Traded {
  quote : DailyQuote;
  TradeDate : Z
}.

Record WeeklyQuote : Type := Weekly {
  WCode : string;
  WeekOpen : Q;
  WeekHigh : Q;
  WeekLow : Q;
  WeekClose : Q;
  WeekVolume : Q;
  WeekTurnover : Q;
  TradingDays : nat;
  FirstDate : Z;
  LastDate : Z;
  WCompany : CompanyInfo;
  PrevWeekClose : Float.cell;
  WeeklyReturn : Float.cell
}.

Definition code_of (r : TradedQuote) : string := Code (quote r).

(** [get_week_trading_days] *)
Definition get_week_trading_days (week_end : Z) : Py.outcome (list Z) :=
  let days_since_monday := Date.weekday week_end in
  week_start ← Date.sub_days week_end days_since_monday;
  foldl (fun acc i =>
           trading_days ← acc;
           day ← Date.add_days week_start i;
           if bool_decide (day <= week_end) && bool_decide (Date.weekday day < 5)
           then mret (trading_days ++ [day])
           else mret trading_days)
        (mret []) [0; 1; 2; 3; 4].

(** [get_previous_week_end] *)
Definition get_previous_week_end (week_end : Z) : Py.outcome Z :=
  let days_to_friday := (Date.weekday week_end - 4) mod 7 in
  let days_to_friday :=
    if bool_decide (days_to_friday = 0) then 7 else days_to_friday in
  Date.sub_days week_end days_to_friday.

(** The order of [sort_values(["Code", "TradeDate"])]. *)
Definition key_leb (a b : TradedQuote) : bool :=
  if decide (code_of a = code_of b)
  then bool_decide (TradeDate a <= TradeDate b)
  else Pandas.str_leb (code_of a) (code_of b).

Definition Qmaximum (x : Q) (l : list Q) : Q := foldr Qmax x l.
Definition Qminimum (x : Q) (l : list Q) : Q := foldr Qmin x l.

(** [groupby("Code").agg(...)] on one group, rows in frame order. *)
Definition agg (code : string) (group : list TradedQuote)
  : option WeeklyQuote :=
  first ← head group;
  final ← last group;
  Some {|
    WCode := code;
    WeekOpen := Open (quote first);
    WeekHigh := Qmaximum (High (quote first)) (map (High ∘ quote) group);
    WeekLow := Qminimum (Low (quote first)) (map (Low ∘ quote) group);
    WeekClose := Close (quote final);
    WeekVolume := Pandas.Qsum (map (Volume ∘ quote) group);
    WeekTurnover := Pandas.Qsum (map (TurnoverValue ∘ quote) group);
    TradingDays := length (remove_dups (map TradeDate group));
    FirstDate := foldr Z.min (TradeDate first) (map TradeDate group);
    LastDate := foldr Z.max (TradeDate first) (map TradeDate group);
    WCompany := Info None None None;
    PrevWeekClose := Float.NaN;
    WeeklyReturn := Float.NaN
  |}.

Definition groupby_agg (frame : list TradedQuote) : list WeeklyQuote :=
  omap (fun c => agg c (filter (fun r => code_of r = c) frame))
       (Pandas.group_keys (map code_of frame)).

Definition with_company (w : WeeklyQuote) (i : CompanyInfo) : WeeklyQuote :=
  Weekly (WCode w) (WeekOpen w) (WeekHigh w) (WeekLow w) (WeekClose w)
    (WeekVolume w) (WeekTurnover w) (TradingDays w) (FirstDate w)
    (LastDate w) i (PrevWeekClose w) (WeeklyReturn w).

Definition with_return (w : WeeklyQuote) (prev ret : Float.cell)
  : WeeklyQuote :=
  Weekly (WCode w) (WeekOpen w) (WeekHigh w) (WeekLow w) (WeekClose w)
    (WeekVolume w) (WeekTurnover w) (TradingDays w) (FirstDate w)
    (LastDate w) (WCompany w) prev ret.

(** The company columns of the last day, [drop_duplicates("Code")],
    left-joined on [Code]. *)
Definition merge_company (combined : list TradedQuote)
  (weekly_agg : list WeeklyQuote) : list WeeklyQuote :=
  match combined with
  | [] => weekly_agg
  | r0 :: _ =>
      let last_date := foldr Z.max (TradeDate r0) (map TradeDate combined) in
      let last_day_df :=
        filter (fun r => TradeDate r = last_date) combined in
      map (fun w =>
             match filter (fun r => code_of r = WCode w) last_day_df with
             | [] => w
             | r :: _ => with_company w (Company (quote r))
             end)
          weekly_agg
  end.

(** [(WeekClose - PrevWeekClose) / PrevWeekClose * 100] on the columns. *)
Definition return_pct (week_close : Q) (prev_week_close : Float.cell)
  : Float.cell :=
  Float.mul
    (Float.div (Float.sub (Float.Num week_close) prev_week_close)
               prev_week_close)
    (Float.Num 100).

(** [weekly_agg.merge(prev_close, on="Code", how="left")] and the
    return column: one output row per matching row of the right table,
    and one with a null [PrevWeekClose] when there is none. *)
Definition merge_prev (prev_close : list DailyQuote)
  (weekly_agg : list WeeklyQuote) : list WeeklyQuote :=
  w ← weekly_agg;
  match filter (fun p => Code p = WCode w) prev_close with
  | [] => [with_return w Float.NaN (return_pct (WeekClose w) Float.NaN)]
  | matches =>
      map (fun p =>
             let prev := Float.Num (Close p) in
             with_return w prev (return_pct (WeekClose w) prev))
          matches
  end.

(** The body of [aggregate_daily_quotes] after the daily tables have
    been collected. *)
Definition aggregate (daily_dfs : list (list TradedQuote))
  (prev_week_close_df : option (list DailyQuote)) : list WeeklyQuote :=
  match daily_dfs with
  | [] => []
  | _ =>
      let combined_df := concat daily_dfs in
      let combined_df := Pandas.sort_values key_leb combined_df in
      let weekly_agg := groupby_agg combined_df in
      let weekly_agg := merge_company combined_df weekly_agg in
      match prev_week_close_df with
      | Some (p :: prev) => merge_prev (p :: prev) weekly_agg
      | _ => map (fun w => with_return w Float.NaN Float.NaN) weekly_agg
      end
  end.

Section collect.
Variable pd_DataFrame :
  DataFetcher.pyobj (list DailyQuote) -> Py.outcome (list DailyQuote).
Variable rename :
  list (string * string) -> list DailyQuote -> list DailyQuote.

Definition stamp (day : Z) (df : list DailyQuote) : list TradedQuote :=
  map (fun q => Traded q day) df.

(** The loop over [trading_days]; [fetcher] is the API client of the
    optional [DataFetcher], which shares the aggregator's cache. *)
Fixpoint collect (fetcher : option (DataFetcher.client (list DailyQuote)))
  (trading_days : list Z) (daily_dfs : list (list TradedQuote))
  (st : DataFetcher.state (list DailyQuote))
  : Py.outcome (list (list TradedQuote))
    * DataFetcher.state (list DailyQuote) :=
  match trading_days with
  | [] => (Py.Ret daily_dfs, st)
  | day :: rest =>
      let date_str := Date.strftime day in
      let lookup :=
        CacheManager.get (DataFetcher.clock st)
          ("daily_quotes_" +:+ date_str) (DataFetcher.cache st) in
      let st :=
        DataFetcher.State lookup.2 (DataFetcher._last_request_time st)
          (DataFetcher.clock st) in
      match lookup.1, fetcher with
      | Some (q :: df), _ =>
          collect fetcher rest (daily_dfs ++ [stamp day (q :: df)]) st
      | _, Some cl =>
          match DataFetcher.fetch_daily_quotes pd_DataFrame rename
                  day None false cl st with
          | (Py.Ret (q :: df), st) =>
              collect fetcher rest (daily_dfs ++ [stamp day (q :: df)]) st
          | (Py.Ret [], st) => collect fetcher rest daily_dfs st
          | (Py.Raise e, st) => (Py.Raise e, st)
          end
      | _, None => collect fetcher rest daily_dfs st
      end
  end.

Definition aggregate_daily_quotes
  (fetcher : option (DataFetcher.client (list DailyQuote)))
  (trading_days : list Z) (prev_week_close_df : option (list DailyQuote))
  (st : DataFetcher.state (list DailyQuote))
  : Py.outcome (list WeeklyQuote) * DataFetcher.state (list DailyQuote) :=
  match trading_days with
  | [] => (Py.Ret [], st)
  | _ =>
      let '(daily_dfs, st) := collect fetcher trading_days [] st in
      (dfs ← daily_dfs; mret (aggregate dfs prev_week_close_df), st)
  end.
End collect.

(** What the data model asks of the weekly row [w] of an instrument whose
    daily rows are [rows]: the open of a row of the first day and the
    close of a row of the last day, the largest high and the smallest
    low, the sums of volume and turnover, and the number of distinct
    days. *)
Definition summarises (rows : list TradedQuote) (w : WeeklyQuote) : Prop :=
  (∃ first, first ∈ rows
            ∧ (∀ r, r ∈ rows → TradeDate first <= TradeDate r)
            ∧ WeekOpen w = Open (quote first))
  ∧ (∃ final, final ∈ rows
              ∧ (∀ r, r ∈ rows → TradeDate r <= TradeDate final)
              ∧ WeekClose w = Close (quote final))
  ∧ (∃ top, top ∈ rows ∧ WeekHigh w = High (quote top))
  ∧ (∀ r, r ∈ rows → (High (quote r) <= WeekHigh w)%Q)
  ∧ (∃ bottom, bottom ∈ rows ∧ WeekLow w = Low (quote bottom))
  ∧ (∀ r, r ∈ rows → (WeekLow w <= Low (quote r))%Q)
  ∧ (WeekVolume w == Pandas.Qsum (map (Volume ∘ quote) rows))%Q
  ∧ (WeekTurnover w == Pandas.Qsum (map (TurnoverValue ∘ quote) rows))%Q
  ∧ TradingDays w = length (remove_dups (map TradeDate rows)).

(** Two weekly rows with the same aggregated columns; the two merges
    only add columns to a row. *)
Definition same_aggregate (o w : WeeklyQuote) : Prop :=
  WCode o = WCode w
  ∧ WeekClose o = WeekClose w
  ∧ ∀ rows, summarises rows w → summarises rows o.


(** [get_latest_friday]; [today] is what [date.today()] returns. The
    function of the same name in main.py has the same body. *)
Definition get_latest_friday (today : Z) (reference_date : option Z)
  : Py.outcome Z :=
  let reference_date := default today reference_date in
  let days_since_friday := (Date.weekday reference_date - 4) mod 7 in
  Date.sub_days reference_date days_since_friday.

End WeeklyDataAggregator.

(** ** main.py: the dates of the weekly report *)

Module Main.

Record week_dates : Type := WeekDates {
  trading_days : list Z;
  week_start : Z;
  prev_week_end : Z;
  prev_trading_days : list Z
}.

(** The dates that [generate_weekly_report] computes from [week_end]. *)
Definition generate_weekly_report_dates (week_end : Z)
  : Py.outcome week_dates :=
  trading_days ← WeeklyDataAggregator.get_week_trading_days week_end;
  week_start ← match trading_days with
               | day :: _ => mret day
               | [] => Date.sub_days week_end 4
               end;
  prev_week_end ← WeeklyDataAggregator.get_previous_week_end week_end;
  prev_trading_days ←
    WeeklyDataAggregator.get_week_trading_days prev_week_end;
  mret (WeekDates trading_days week_start prev_week_end prev_trading_days).

End Main.

(** ** analysis: the price tables of the analyzers *)

(** A row of [prices_df] or [historical_df]. *)
Record PriceRow : Type := Price {
  Code : string;
  Date : string;
  CompanyName : string;
  Name : string;
  Sector33CodeName : string;
  Close : Float.cell;
  High : Float.cell;
  Low : Float.cell;
  ChangeRate : Float.cell;
  Volume : Float.cell;
  TurnoverValue : Float.cell;
  PrevClose : Float.cell
}.

(** [(series > 0).sum()] and the like. *)
Definition count_if {A} (p : A -> bool) (l : list A) : nat :=
  length (filter (fun x => p x = true) l).

(** ** analysis/technical.py *)

Module TechnicalAnalyzer.




(** The moving average of one instrument: the mean of the closes of its
    last [period] rows, whatever their number. *)
Definition ma_value (historical : list PriceRow) (period : Z) (code : string)
  : Float.cell :=
  Float.mean
    (map Close
       (Pandas.tail period (filter (fun r => Code r = code) historical))).

(** [result_df.merge(ma_values, left_on="Code", right_index=True,
    how="left")]: the column [MA{period}] of the merged table. *)
Definition ma_column (current historical : list PriceRow) (period : Z)
  : list Float.cell :=
  map (fun r =>
         if bool_decide (Code r ∈ map Code historical)
         then ma_value historical period (Code r)
         else Float.NaN)
      current.

Definition divergence (close ma : Float.cell) : Float.cell :=
  Float.mul (Float.div (Float.sub close ma) ma) (Float.Num 100).

Definition calculate_ma_divergence (current_df historical_df : Table PriceRow)
  (period : Z) : option Float.cell * option Float.cell :=
  if frame_empty current_df || frame_empty historical_df
     || negb (has_column "Close" historical_df)
  then (None, None)
  else if negb (has_column "Close" current_df) then (None, None)
  else
    let closes := map Close (rows current_df) in
    let ma := ma_column (rows current_df) (rows historical_df) period in
    let valid_divergence :=
      Float.dropna (zip_with divergence closes ma) in
    match valid_divergence with
    | [] => (None, None)
    | _ =>
        let avg_divergence := Float.mean valid_divergence in
        let stocks_above_ma :=
          count_if (fun cm => Float.ltb cm.2 cm.1) (zip closes ma) in
        let total_stocks := count_if Float.notna ma in
        let stocks_above_ma_pct :=
          if bool_decide (0 < total_stocks)%nat
          then Some (Float.mul
                       (Float.div (Float.of_nat stocks_above_ma)
                                  (Float.of_nat total_stocks))
                       (Float.Num 100))
          else None in
        (Some avg_divergence, stocks_above_ma_pct)
    end.

End TechnicalAnalyzer.

(** ** analysis/weekly/technical.py *)

Module WeeklyTechnicalAnalyzer.

(** The moving average of [_calculate_ma_status]:
    [x.tail(p).mean() if len(x) >= p * 0.8 else None]. *)
Definition ma_value (historical : list PriceRow) (period : Z) (code : string)
  : Float.cell :=
  let x := filter (fun r => Code r = code) historical in
  if bool_decide (period * 4 <= Z.of_nat (length x) * 5)
  then Float.mean (map Close (Pandas.tail period x))
  else Float.NaN.

End WeeklyTechnicalAnalyzer.

(** ** analysis/market.py *)

Module MarketAnalyzer.



End MarketAnalyzer.

(** ** analysis/stocks.py *)

Module StockAnalyzer.

Record StockInfo : Type := Stock {
  code : string;
  name : string;
  close : Float.cell;
  change : Float.cell;
  change_pct : Float.cell;
  volume : Float.cell;
  turnover_value : Float.cell;
  sector_name : string
}.

(** [row.get(col, default)] *)
Definition row_get {A} (df : Table PriceRow) (col : string)
  (field : A) (default : A) : A :=
  if has_column col df then field else default.

(** The body of the loop of [_convert_to_stock_info]; [df] gives the
    columns of the row. *)
Definition convert_row (df : Table PriceRow) (row : PriceRow) : StockInfo :=
  let code := row_get df "Code" (Code row) "" in
  let name :=
    row_get df "CompanyName" (CompanyName row)
      (row_get df "Name" (Name row) "") in
  let close := row_get df "Close" (Close row) (Float.Num 0) in
  let change_pct := row_get df "ChangeRate" (ChangeRate row) (Float.Num 0) in
  let volume := row_get df "Volume" (Volume row) (Float.Num 0) in
  let turnover_value :=
    row_get df "TurnoverValue" (TurnoverValue row) (Float.Num 0) in
  let prev_close := row_get df "PrevClose" (PrevClose row) Float.NaN in
  let change :=
    if Float.notna prev_close then Float.sub close prev_close
    else if negb (Float.eq0 change_pct) then
      Float.sub close
        (Float.div close
           (Float.add (Float.Num 1)
              (Float.div change_pct (Float.Num 100))))
    else Float.Num 0 in
  let sector_name :=
    row_get df "Sector33CodeName" (Sector33CodeName row) "" in
  Stock code name close change change_pct volume turnover_value sector_name.

Definition _convert_to_stock_info (df : Table PriceRow) : list StockInfo :=
  map (convert_row df) (rows df).

Definition rate_leb (a b : PriceRow) : bool :=
  Float.leb (ChangeRate a) (ChangeRate b).

(** [df.nsmallest(n, "ChangeRate")]: ascending, ties in table order. *)
Definition nsmallest (n : Z) (df : Table PriceRow) : Table PriceRow :=
  MkTable (columns df)
    (Pandas.nfirst n (Pandas.sort_values rate_leb (rows df))).

(** [df.nlargest(n, "ChangeRate")] *)
Definition nlargest (n : Z) (df : Table PriceRow) : Table PriceRow :=
  MkTable (columns df)
    (Pandas.nfirst n
       (Pandas.sort_values (fun a b => rate_leb b a) (rows df))).

Definition select (p : PriceRow -> bool) (df : Table PriceRow)
  : Table PriceRow :=
  MkTable (columns df) (filter (fun r => p r = true) (rows df)).

Definition get_top_gainers (prices_df : Table PriceRow) (top_n : Z)
  : list StockInfo :=
  if frame_empty prices_df || negb (has_column "ChangeRate" prices_df)
  then []
  else
    let valid_df := select (fun r => Float.notna (ChangeRate r)) prices_df in
    let sorted_df := nlargest top_n valid_df in
    _convert_to_stock_info sorted_df.

Definition get_top_losers (prices_df : Table PriceRow) (top_n : Z)
  : list StockInfo :=
  if frame_empty prices_df || negb (has_column "ChangeRate" prices_df)
  then []
  else
    let valid_df := select (fun r => Float.notna (ChangeRate r)) prices_df in
    let losers_df := select (fun r => Float.lt0 (ChangeRate r)) valid_df in
    let sorted_df := nsmallest top_n losers_df in
    _convert_to_stock_info sorted_df.

End StockAnalyzer.

(** ** api/auth.py and api/client.py *)

Module JQuantsClient.

(** What [requests] gets back: no response at all, or a status code and
    a body ([None] when the body is not JSON, else the JSON object). *)
Inductive reply : Type :=
| ConnectionError
| Response (status_code : Z) (body : option (list (string * string))).

(** The servers, as the replies they will give, in order, to the posts
    to [/token/auth_user], the posts to [/token/auth_refresh] and the
    API requests; [sent] logs every request made (URL path and bearer
    token), latest first. *)
Record world : Type := World {
  clock : Z;
  auth_user_replies : list reply;
  auth_refresh_replies : list reply;
  api_replies : list reply;
  sent : list (string * string)
}.

Record TokenInfo : Type := Token {
  token : string;
  expires_at : Z
}.

Record state : Type := State {
  _refresh_token : option string;
  _id_token : option TokenInfo;
  _last_request_time : Z;
  net : world
}.

(** Code that reads and writes the client and the network and may
    raise; what it wrote before raising stays written. *)
Definition M (A : Type) : Type := state -> Py.outcome A * state.

#[export] Instance M_ret : MRet M := fun A a st => (Py.Ret a, st).
#[export] Instance M_bind : MBind M := fun A B k m st =>
  match m st with
  | (Py.Ret a, st') => k a st'
  | (Py.Raise e, st') => (Py.Raise e, st')
  end.

Definition raise {A} (e : Py.exn) : M A := fun st => (Py.Raise e, st).

(** [try: body except cls: handler], for the exceptions [cls] accepts. *)
Definition try_except {A} (body : M A) (cls : Py.exn -> bool)
  (handler : Py.exn -> M A) : M A := fun st =>
  match body st with
  | (Py.Raise e, st') => if cls e then handler e st' else (Py.Raise e, st')
  | r => r
  end.

Definition seconds (n : Z) : Z := n * 1000000.

Definition time_sleep (d : Z) : M () := fun st =>
  let w := net st in
  (Py.Ret (),
   State (_refresh_token st) (_id_token st) (_last_request_time st)
     (World (clock w + d) (auth_user_replies w) (auth_refresh_replies w)
        (api_replies w) (sent w))).

Definition time_time : M Z := fun st => (Py.Ret (clock (net st)), st).

(** [response.raise_for_status()] *)
Definition raise_for_status (status_code : Z) : M () :=
  if bool_decide (400 <= status_code < 600)
  then raise Py.RequestException else mret ().

(** [response.json()] *)
Definition json (body : option (list (string * string)))
  : M (list (string * string)) :=
  match body with
  | Some data => mret data
  | None => raise Py.JSONDecodeError
  end.

Definition TOKEN_AUTH_USER_ENDPOINT : string := "/token/auth_user".
Definition TOKEN_AUTH_REFRESH_ENDPOINT : string := "/token/auth_refresh".

Definition next_reply (queue : list reply) : reply * list reply :=
  match queue with
  | [] => (ConnectionError, [])
  | r :: rest => (r, rest)
  end.

Definition deliver (r : reply) : M (Z * option (list (string * string))) :=
  match r with
  | ConnectionError => raise Py.RequestException
  | Response status_code body => mret (status_code, body)
  end.

Definition post_auth_user : M (Z * option (list (string * string))) :=
  fun st =>
    let w := net st in
    let '(r, rest) := next_reply (auth_user_replies w) in
    deliver r
      (State (_refresh_token st) (_id_token st) (_last_request_time st)
         (World (clock w) rest (auth_refresh_replies w) (api_replies w)
            ((TOKEN_AUTH_USER_ENDPOINT, "") :: sent w))).

Definition post_auth_refresh : M (Z * option (list (string * string))) :=
  fun st =>
    let w := net st in
    let '(r, rest) := next_reply (auth_refresh_replies w) in
    deliver r
      (State (_refresh_token st) (_id_token st) (_last_request_time st)
         (World (clock w) (auth_user_replies w) rest (api_replies w)
            ((TOKEN_AUTH_REFRESH_ENDPOINT, "") :: sent w))).

(** [requests.request(method, url, headers, params, timeout=30)] *)
Definition requests_request (endpoint bearer : string)
  : M (Z * option (list (string * string))) :=
  fun st =>
    let w := net st in
    let '(r, rest) := next_reply (api_replies w) in
    deliver r
      (State (_refresh_token st) (_id_token st) (_last_request_time st)
         (World (clock w) (auth_user_replies w) (auth_refresh_replies w)
            rest ((endpoint, bearer) :: sent w))).

Definition set_refresh_token (t : string) : M () := fun st =>
  (Py.Ret (), State (Some t) (_id_token st) (_last_request_time st) (net st)).

Definition set_id_token (t : option TokenInfo) : M () := fun st =>
  (Py.Ret (), State (_refresh_token st) t (_last_request_time st) (net st)).

(** [TokenInfo.is_expired], with its default buffer of 300 seconds. *)
Definition is_expired (now : Z) (t : TokenInfo) : bool :=
  bool_decide (expires_at t - seconds 300 <= now).

Definition get_refresh_token : M string := fun st =>
  match _refresh_token st with
  | Some (String a s) => (Py.Ret (String a s), st)
  | _ =>
      (response ←
         try_except
           ('(status_code, body) ← post_auth_user;
            _ ← raise_for_status status_code;
            mret body)
           Py.is_RequestException
           (fun _ => raise Py.AuthenticationError);
       data ← json response;
       match DataFetcher.assoc "refreshToken" data with
       | None => raise Py.AuthenticationError
       | Some t => _ ← set_refresh_token t; mret t
       end) st
  end.

Definition get_id_token (force_refresh : bool) : M string := fun st =>
  let cached :=
    match _id_token st with
    | Some t =>
        if negb force_refresh && negb (is_expired (clock (net st)) t)
        then Some (token t) else None
    | None => None
    end in
  match cached with
  | Some t => (Py.Ret t, st)
  | None =>
      (refresh_token ← get_refresh_token;
       response ←
         try_except
           ('(status_code, body) ← post_auth_refresh;
            _ ← raise_for_status status_code;
            mret body)
           Py.is_RequestException
           (fun _ => raise Py.AuthenticationError);
       data ← json response;
       match DataFetcher.assoc "idToken" data with
       | None => raise Py.AuthenticationError
       | Some t =>
           now ← time_time;
           _ ← set_id_token (Some (Token t (now + seconds (24 * 60 * 60))));
           mret t
       end) st
  end.

(** The bearer token of the [Authorization] header. *)
Definition get_auth_headers : M string := get_id_token false.

Definition invalidate_tokens : M () := set_id_token None.

Definition clear_all_tokens : M () := fun st =>
  (Py.Ret (), State None None (_last_request_time st) (net st)).

Definition rate_limit_delay : Z := seconds 1.

Definition _enforce_rate_limit : M () := fun st =>
  let elapsed := clock (net st) - _last_request_time st in
  let '(_, st) :=
    if bool_decide (elapsed < rate_limit_delay)
    then time_sleep (rate_limit_delay - elapsed) st
    else (Py.Ret (), st) in
  (Py.Ret (),
   State (_refresh_token st) (_id_token st) (clock (net st)) (net st)).

(** The body of [_make_request], one attempt. *)
Definition attempt (endpoint : string) : M (list (string * string)) :=
  _ ← _enforce_rate_limit;
  id_token ← get_auth_headers;
  response ←
    try_except
      ('(status_code, body) ← requests_request endpoint id_token;
       _ ← (if bool_decide (status_code = 401)
            then _ ← invalidate_tokens; raise Py.AuthenticationError
            else if bool_decide (status_code = 404)
            then raise Py.NotFoundError
            else if bool_decide (status_code = 429)
            then raise Py.RateLimitError
            else if bool_decide (500 <= status_code)
            then raise Py.APIError
            else mret ());
       _ ← raise_for_status status_code;
       mret body)
      Py.is_RequestException
      (fun _ => raise Py.APIError);
  try_except (json response) Py.is_ValueError
    (fun _ => raise Py.APIError).

(** The decorator:
    [retry_if_exception_type((requests.RequestException, APIError))],
    [stop_after_attempt(3)],
    [wait_exponential(multiplier=1, min=2, max=10)], [reraise=True]. *)
Definition retry_if (e : Py.exn) : bool :=
  Py.is_RequestException e || Py.is_APIError e.

Definition wait_exponential (attempt_number : Z) : Z :=
  seconds (Z.max 2 (Z.min (2 ^ (attempt_number - 1)) 10)).

Fixpoint retry {A} (further_attempts : nat) (attempt_number : Z)
  (body : M A) : M A := fun st =>
  match body st with
  | (Py.Raise e, st') =>
      if retry_if e then
        match further_attempts with
        | O => (Py.Raise e, st')
        | S n =>
            (_ ← time_sleep (wait_exponential attempt_number);
             retry n (attempt_number + 1) body) st'
        end
      else (Py.Raise e, st')
  | r => r
  end.

Definition _make_request (endpoint : string) : M (list (string * string)) :=
  retry 2 1 (attempt endpoint).

(** The API requests among those sent. *)
Definition api_requests (st : state) : list (string * string) :=
  filter (fun r => r.1 ≠ TOKEN_AUTH_USER_ENDPOINT
                   ∧ r.1 ≠ TOKEN_AUTH_REFRESH_ENDPOINT)
         (sent (net st)).

End JQuantsClient.

(** ** A sample week *)

(** The week of Monday 2024-01-15: one instrument with opens 10 to 14 and
    closes 10.5 to 14.5, each day's table in the cache. *)
Module Sample.

Definition monday : Z := 738900.

Definition days : list Z :=
  [monday; monday + 1; monday + 2; monday + 3; monday + 4].

Definition quote (code : string) (i : Z) : WeeklyDataAggregator.DailyQuote :=
  WeeklyDataAggregator.Quote code
    (inject_Z (10 + i)) (inject_Z (11 + i)) (inject_Z (9 + i))
    (Qplus (inject_Z (10 + i)) (1 # 2)) (inject_Z (100 * (1 + i)))
    (inject_Z (1000 * (1 + i)))
    (WeeklyDataAggregator.Info (Some "X Corp") (Some "3200") (Some "Chemicals")).

Definition entry_of (day : Z)
  : string * CacheManager.entry (list WeeklyDataAggregator.DailyQuote) :=
  ("daily_quotes_" +:+ Date.strftime day,
   CacheManager.Entry (CacheManager.Pickled [quote "1301" (day - monday)])
     1 0 (CacheManager.hours 24)).

Definition cache_of (days : list Z)
  : gmap string (CacheManager.entry (list WeeklyDataAggregator.DailyQuote)) :=
  list_to_map (map entry_of days).

Definition state_of (days : list Z)
  : DataFetcher.state (list WeeklyDataAggregator.DailyQuote) :=
  DataFetcher.State (cache_of days) 0 (CacheManager.hours 1).

(** [pd.DataFrame] on a response that cannot be tabulated. *)
Definition pd_DataFrame
  (response : DataFetcher.pyobj (list WeeklyDataAggregator.DailyQuote))
  : Py.outcome (list WeeklyDataAggregator.DailyQuote) :=
  match response with
  | DataFetcher.PFrame df => Py.Ret df
  | DataFetcher.PList [] => Py.Ret []
  | _ => Py.Raise Py.ValueError
  end.

Definition rename (m : list (string * string))
  (df : list WeeklyDataAggregator.DailyQuote)
  : list WeeklyDataAggregator.DailyQuote := df.

(** The closes of the last day of the previous week. *)
Definition prev_week : list WeeklyDataAggregator.DailyQuote :=
  [WeeklyDataAggregator.Quote "1301" 9 11 9 10 50 500
     (WeeklyDataAggregator.Info None None None)].

End Sample.

(** * Properties *)

(** ** The cache *)

Section cache_properties.
Context {T : Type} `{Frame T}.
Implicit Types (db : gmap string (CacheManager.entry T)) (key : string).

Lemma get_hit now key db df :
  (CacheManager.get now key db).1 = Some df ↔
  ∃ row, db !! key = Some row ∧ now < CacheManager.expires_at row
         ∧ CacheManager.data row = CacheManager.Pickled df.
Proof.
  unfold CacheManager.get, CacheManager._sanitize_key.
  destruct (db !! key) as [row|] eqn:Hrow; simpl.
  - case_bool_decide as Hexp; simpl.
    + split; [done|]. intros (r & [= <-] & Hlt & _). lia.
    + destruct (CacheManager.data row) as [df'|raw] eqn:Hdata; simpl.
      * split.
        -- intros [= ->]. exists row. split_and!; [done|lia|done].
        -- intros (r & [= <-] & _ & Hd). congruence.
      * split; [done|]. intros (r & [= <-] & _ & Hd). congruence.
  - split; [done|]. intros (r & Hr & _). done.
Qed.

Lemma get_expired now key db row :
  db !! key = Some row → CacheManager.expires_at row <= now →
  CacheManager.get now key db = (None, delete key db).
Proof.
  intros Hrow Hexp. unfold CacheManager.get, CacheManager._sanitize_key.
  rewrite Hrow. by rewrite bool_decide_eq_true_2.
Qed.

Lemma get_missing now key db :
  db !! key = None → CacheManager.get now key db = (None, db).
Proof.
  intros Hrow. unfold CacheManager.get, CacheManager._sanitize_key.
  by rewrite Hrow.
Qed.

Lemma set_empty now key df ttl db :
  frame_empty df = true → CacheManager.set now key df ttl db = db.
Proof. intros Hempty. unfold CacheManager.set. by rewrite Hempty. Qed.

Lemma set_nonempty now key df ttl db :
  frame_empty df = false →
  CacheManager.set now key df ttl db
  = <[key := CacheManager.Entry (CacheManager.Pickled df) (frame_len df) now
            (now + CacheManager.hours (default CacheManager.default_ttl_hours ttl))]> db.
Proof.
  intros Hne. unfold CacheManager.set. rewrite Hne.
  by destruct ttl.
Qed.

Lemma set_stores_nonempty now key df ttl db k e :
  CacheManager.set now key df ttl db !! k = Some e →
  db !! k = Some e
  ∨ (k = key ∧ CacheManager.data e = CacheManager.Pickled df
     ∧ frame_empty df = false).
Proof.
  destruct (frame_empty df) eqn:Hempty.
  - rewrite set_empty by done. by left.
  - rewrite set_nonempty by done.
    destruct (decide (key = k)) as [->|Hne].
    + rewrite lookup_insert_eq. intros [= <-]. by right.
    + rewrite lookup_insert_ne by done. by left.
Qed.
End cache_properties.

(** C2, as the code has it. [get] returns a table exactly when the key has
    a row that has not expired ([now < expires_at]) and whose payload can
    be read back, and the table is then the stored one; on a row that has
    expired it returns nothing and deletes the row, so that the key has no
    row afterwards and the next [get] finds nothing either. *)
Theorem get_fresh_readable_or_evicted :
  ∀ (T : Type) (F : Frame T) (now : Z) (key : string)
    (db : gmap string (CacheManager.entry T)),
    (∀ df, (CacheManager.get now key db).1 = Some df ↔
           ∃ row, db !! key = Some row ∧ now < CacheManager.expires_at row
                  ∧ CacheManager.data row = CacheManager.Pickled df)
    ∧ (∀ row, db !! key = Some row → CacheManager.expires_at row <= now →
         (CacheManager.get now key db).1 = None
         ∧ (CacheManager.get now key db).2 = delete key db
         ∧ (CacheManager.get now key db).2 !! key = None
         ∧ ∀ later, (CacheManager.get later key
                       (CacheManager.get now key db).2).1 = None).
Proof.
  intros T F now key db. split.
  - intros df. apply get_hit.
  - intros row Hrow Hexp. rewrite (get_expired _ _ _ _ Hrow Hexp). simpl.
    split_and!; [done|done|apply lookup_delete_eq|].
    intros later. rewrite get_missing; [done|apply lookup_delete_eq].
Qed.

Lemma get_fresh_readable_or_evicted_witness :
  let row := CacheManager.Entry (CacheManager.Pickled [7; 8]) 2 0 100 in
  let db : gmap string (CacheManager.entry (list Z)) :=
    {[ "listed_info" := row ]} in
  (CacheManager.get 99 "listed_info" db).1 = Some [7; 8]
  ∧ (CacheManager.get 100 "listed_info" db).1 = None
  ∧ (CacheManager.get 100 "listed_info" db).2 !! "listed_info" = None
  ∧ (CacheManager.get 50 "listed_info"
       (CacheManager.get 100 "listed_info" db).2).1 = None.
Proof.
  intros row db.
  destruct (get_fresh_readable_or_evicted (list Z) _ 99 "listed_info" db)
    as [Hhit _].
  destruct (get_fresh_readable_or_evicted (list Z) _ 100 "listed_info" db)
    as [_ Hexpired].
  destruct (Hexpired row) as (Hnone & _ & Hgone & Hnext);
    [reflexivity|simpl; lia|].
  split_and!; [|exact Hnone|exact Hgone|apply Hnext].
  apply Hhit. exists row. split_and!; [reflexivity|simpl; lia|reflexivity].
Defined.

(** C2, as stated, fails on a row that has not expired but whose payload
    cannot be read back: [get] returns nothing although
    [now < expires_at]. *)
Lemma get_unexpired_unreadable_is_miss :
  ¬ (∀ (now : Z) (key : string) (db : gmap string (CacheManager.entry (list Z)))
       (row : CacheManager.entry (list Z)),
        db !! key = Some row →
        (is_Some (CacheManager.get now key db).1
         ↔ now < CacheManager.expires_at row)).
Proof.
  intros Hclaim.
  pose (row := CacheManager.Entry
                 (CacheManager.Unreadable (T := list Z) []) 3 0 100).
  destruct (Hclaim 50 "daily_quotes_2024-01-15" {[ "daily_quotes_2024-01-15" := row ]} row)
    as [_ Hback].
  - apply lookup_singleton_eq.
  - destruct Hback as [df Hdf]; [simpl; lia|].
    vm_compute in Hdf. discriminate.
Qed.

(** C7. [set] of an empty table returns with the store as it was: no row
    is created or overwritten, and every later [get], of any key at any
    time, gives what it would have given without the call. *)
Theorem set_empty_is_noop :
  ∀ (T : Type) (F : Frame T) (now : Z) (key : string) (df : T)
    (ttl_hours : option Z) (db : gmap string (CacheManager.entry T)),
    frame_empty df = true →
    CacheManager.set now key df ttl_hours db = db
    ∧ (∀ k, CacheManager.set now key df ttl_hours db !! k = db !! k)
    ∧ (∀ later k, CacheManager.get later k
                    (CacheManager.set now key df ttl_hours db)
                  = CacheManager.get later k db).
Proof.
  intros T F now key df ttl db Hempty.
  rewrite (set_empty _ _ _ _ _ Hempty). done.
Qed.

Lemma set_empty_is_noop_witness :
  let db : gmap string (CacheManager.entry (list Z)) :=
    {[ "listed_info" :=
         CacheManager.Entry (CacheManager.Pickled [7; 8]) 2 0 100 ]} in
  CacheManager.set 10 "listed_info" [] (Some 1) db = db
  ∧ (∀ k, CacheManager.set 10 "listed_info" [] (Some 1) db !! k = db !! k)
  ∧ (∀ later k, CacheManager.get later k
                  (CacheManager.set 10 "listed_info" [] (Some 1) db)
                = CacheManager.get later k db).
Proof.
  intros db.
  apply (set_empty_is_noop (list Z) _ 10 "listed_info" [] (Some 1) db).
  reflexivity.
Defined.

(** ** The fetcher *)

Section fetcher_properties.
Context {T : Type} `{Frame T}.
Variable pd_DataFrame : DataFetcher.pyobj T → Py.outcome T.
Variable rename : list (string * string) → T → T.

Lemma _make_api_call_caught cl name kw (st : DataFetcher.state T) :
  ∃ response,
    (DataFetcher._make_api_call cl name kw st).1 = Py.Ret response
    ∧ match DataFetcher.call_method cl name kw with
      | Py.Raise _ => response = DataFetcher.PNone
      | Py.Ret r => response = r
      end.
Proof.
  unfold DataFetcher._make_api_call. simpl.
  destruct (DataFetcher.call_method cl name kw) as [r|e]; simpl.
  - by exists r.
  - exists DataFetcher.PNone. by destruct e.
Qed.

Lemma process_caught ep response (st : DataFetcher.state T) :
  ∃ df st',
    Py.try_except (DataFetcher.process pd_DataFrame rename ep response st)
      (λ _, Py.Ret (frame_new, st)) = Py.Ret (df, st')
    ∧ (Py.raises (DataFetcher.to_frame pd_DataFrame ep response) →
       df = frame_new).
Proof.
  unfold DataFetcher.process.
  destruct (DataFetcher.to_frame pd_DataFrame ep response) as [df|e]; simpl.
  - eexists _, _. split; [done|]. intros [].
  - by eexists _, _.
Qed.

Lemma fetch_returns ep force_refresh cl (st : DataFetcher.state T) :
  ∃ df st',
    DataFetcher.fetch pd_DataFrame rename ep force_refresh cl st
    = (Py.Ret df, st')
    ∧ (DataFetcher.fails pd_DataFrame ep force_refresh cl st →
       df = frame_new).
Proof.
  unfold DataFetcher.fetch, DataFetcher.fails.
  set (lookup := if force_refresh then _ else _).
  assert (lookup.1 = if force_refresh then None
                     else (CacheManager.get (DataFetcher.clock st)
                             (DataFetcher.cache_key ep)
                             (DataFetcher.cache st)).1) as Hl
    by (unfold lookup; by destruct force_refresh).
  rewrite <-Hl. clear Hl.
  destruct (lookup.1) as [cached|]; simpl.
  - eexists _, _. split; [done|]. intros [[=] _].
  - destruct (DataFetcher.call_method cl _ _) as [response|e]; simpl.
    + destruct response as [|df0|items|elems|repr].
      { eexists _, _. by split. }
      all: match goal with
           | |- context [Py.try_except (DataFetcher.process _ _ _ ?r ?s) _] =>
               destruct (process_caught ep r s) as (df & st' & -> & Hraise)
           end.
      all: exists df, st'; split; [done|]; intros [_ Hf]; by apply Hraise.
    + eexists _, _. split; [by destruct e|done].
Qed.
End fetcher_properties.



(** ** The trading days of a week *)

Lemma weekday_eucl d :
  ∃ q, d + 6 = 7 * q + Date.weekday d ∧ 0 <= Date.weekday d < 7.
Proof.
  exists ((d + 6) / 7). unfold Date.weekday. split.
  - apply Z.div_mod. lia.
  - apply Z.mod_pos_bound. lia.
Qed.

Lemma weekday_range d : 0 <= Date.weekday d < 7.
Proof. destruct (weekday_eucl d) as (q & _ & Hr). exact Hr. Qed.

Lemma monday_valid d :
  Date.valid d →
  Date.min_ordinal <= d - Date.weekday d
  ∧ d - Date.weekday d + 4 <= Date.max_ordinal.
Proof.
  destruct (weekday_eucl d) as (q & Hq & Hr).
  unfold Date.valid, Date.min_ordinal, Date.max_ordinal. lia.
Qed.

Lemma weekday_after_monday d i :
  0 <= i < 7 → Date.weekday (d - Date.weekday d + i) = i.
Proof.
  intros Hi. destruct (weekday_eucl d) as (q & Hq & Hr).
  unfold Date.weekday at 1.
  replace (d - Date.weekday d + i + 6) with (i + q * 7) by lia.
  rewrite Z.mod_add by lia. apply Z.mod_small. lia.
Qed.

Lemma add_days_valid d n :
  Date.min_ordinal <= d + n <= Date.max_ordinal →
  Date.add_days d n = Py.Ret (d + n).
Proof. intros Hr. unfold Date.add_days. by rewrite bool_decide_eq_true_2. Qed.

(** The loop keeps the weekdays from Monday up to [week_end]. *)
Lemma get_week_trading_days_unfold week_end :
  Date.valid week_end →
  WeeklyDataAggregator.get_week_trading_days week_end
  = Py.Ret (map (λ i, week_end - Date.weekday week_end + i)
              (filter (λ i, i <= Date.weekday week_end) [0; 1; 2; 3; 4])).
Proof.
  intros Hvalid.
  destruct (monday_valid _ Hvalid) as [Hlo Hhi].
  pose proof (weekday_range week_end) as Hwd.
  unfold WeeklyDataAggregator.get_week_trading_days, Date.sub_days.
  rewrite add_days_valid by (unfold Date.valid in Hvalid; lia).
  replace (week_end + - Date.weekday week_end)
    with (week_end - Date.weekday week_end) by lia.
  set (monday := week_end - Date.weekday week_end) in *.
  assert (∀ i, 0 <= i < 5 →
            Date.add_days monday i = Py.Ret (monday + i)) as Hadd
    by (intros i Hi; apply add_days_valid; lia).
  assert (∀ i, 0 <= i < 5 → Date.weekday (monday + i) = i) as Hday
    by (intros i Hi; apply weekday_after_monday; lia).
  unfold mbind, mret, outcome_bind, outcome_ret. cbn [foldl Py.bind].
  rewrite !Hadd by lia. cbn [Py.bind]. rewrite !Hday by lia.
  assert (week_end = monday + Date.weekday week_end) as Hend by lia.
  rewrite !filter_cons, filter_nil.
  repeat (case_bool_decide; try lia; case_decide; try lia;
          cbn [andb Py.bind app]);
    reflexivity.
Qed.

Example trading_days_of_saturday_2024_01_20 :
  WeeklyDataAggregator.get_week_trading_days 738905
  = Py.Ret [738900; 738901; 738902; 738903; 738904]
  ∧ map Date.strftime [738900; 738904; 738905]
    = ["2024-01-15"; "2024-01-19"; "2024-01-20"]
  ∧ Date.weekday 738905 = 5.
Proof. vm_compute. done. Qed.

(** C9. For every date [week_end], [get_week_trading_days] returns a list
    that is not empty and holds no Saturday or Sunday; when [week_end] is
    itself a Saturday or a Sunday the list is the five dates Monday to
    Friday of its week, which is also what the Friday of that week
    gives. *)
Theorem week_trading_days_never_empty_nor_weekend :
  ∀ week_end : Z,
    Date.valid week_end →
    ∃ days,
      WeeklyDataAggregator.get_week_trading_days week_end = Py.Ret days
      ∧ days ≠ []
      ∧ Forall (λ d, Date.weekday d < 5) days
      ∧ (5 <= Date.weekday week_end →
         let monday := week_end - Date.weekday week_end in
         days = [monday; monday + 1; monday + 2; monday + 3; monday + 4]
         ∧ WeeklyDataAggregator.get_week_trading_days (monday + 4)
           = Py.Ret days).
Proof.
  intros week_end Hvalid.
  pose proof (weekday_range week_end) as Hwd.
  destruct (monday_valid _ Hvalid) as [Hlo Hhi].
  eexists. split; [by apply get_week_trading_days_unfold|].
  set (monday := week_end - Date.weekday week_end) in *.
  split_and!.
  - rewrite filter_cons_True by lia. done.
  - apply Forall_forall. intros d [i [-> Hi]]%list_elem_of_fmap.
    apply list_elem_of_filter in Hi as [_ Hi].
    assert (0 <= i < 5) as Hrange.
    { repeat (apply elem_of_cons in Hi as [->|Hi]; [lia|]).
      by apply elem_of_nil in Hi. }
    unfold monday. rewrite weekday_after_monday; lia.
  - intros Hweekend. cbv zeta.
    assert (map (λ i, monday + i)
              (filter (λ i, i <= Date.weekday week_end) [0; 1; 2; 3; 4])
            = [monday; monday + 1; monday + 2; monday + 3; monday + 4])
      as ->.
    { rewrite !filter_cons_True by lia. rewrite filter_nil. simpl.
      f_equal. lia. }
    split; [done|].
    assert (Date.weekday (monday + 4) = 4) as Hfri
      by (unfold monday; apply weekday_after_monday; lia).
    rewrite get_week_trading_days_unfold
      by (unfold Date.valid in *; lia).
    rewrite Hfri. replace (monday + 4 - 4) with monday by lia.
    rewrite !filter_cons_True by lia. rewrite filter_nil. simpl.
    do 2 f_equal. lia.
Qed.

Lemma week_trading_days_never_empty_nor_weekend_witness :
  ∃ days,
    WeeklyDataAggregator.get_week_trading_days 738905 = Py.Ret days
    ∧ days ≠ []
    ∧ Forall (λ d, Date.weekday d < 5) days
    ∧ (5 <= Date.weekday 738905 →
       let monday := 738905 - Date.weekday 738905 in
       days = [monday; monday + 1; monday + 2; monday + 3; monday + 4]
       ∧ WeeklyDataAggregator.get_week_trading_days (monday + 4)
         = Py.Ret days).
Proof.
  apply (week_trading_days_never_empty_nor_weekend 738905).
  unfold Date.valid, Date.min_ordinal, Date.max_ordinal. lia.
Defined.

(** ** Sorting *)

Section sort_properties.
Context {A : Type} (leb : A → A → bool).

Lemma insert_Permutation x l : Pandas.insert leb x l ≡ₚ x :: l.
Proof.
  induction l as [|y l IH]; simpl; [done|].
  destruct (leb x y); [done|]. rewrite IH. apply perm_swap.
Qed.

Lemma sort_values_Permutation l : Pandas.sort_values leb l ≡ₚ l.
Proof.
  induction l as [|x l IH]; simpl; [done|].
  by rewrite insert_Permutation, IH.
Qed.

Lemma elem_of_sort_values x l : x ∈ Pandas.sort_values leb l ↔ x ∈ l.
Proof. by rewrite sort_values_Permutation. Qed.

Lemma sort_values_nil_inv l : Pandas.sort_values leb l = [] → l = [].
Proof.
  intros Hs. apply Permutation_nil_r. rewrite <-Hs.
  symmetry. apply sort_values_Permutation.
Qed.
End sort_properties.



(** ** Top losers *)

Lemma nfirst_subseteq {A} n (l : list A) x : x ∈ Pandas.nfirst n l → x ∈ l.
Proof. unfold Pandas.nfirst. apply subseteq_take. Qed.

Lemma convert_row_change_pct df row :
  has_column "ChangeRate" df = true →
  StockAnalyzer.change_pct (StockAnalyzer.convert_row df row) = ChangeRate row.
Proof.
  intros Hcol. unfold StockAnalyzer.convert_row.
  cbn [StockAnalyzer.change_pct]. unfold StockAnalyzer.row_get.
  by rewrite Hcol.
Qed.

(** C10. Every stock that [get_top_losers] returns has a strictly negative
    change rate, for any table and any [top_n]; a table whose non-null
    change rates are all zero or more gives the empty list. *)
Theorem top_losers_only_negative :
  ∀ (prices_df : Table PriceRow) (top_n : Z),
    Forall (λ s, Float.lt0 (StockAnalyzer.change_pct s) = true)
      (StockAnalyzer.get_top_losers prices_df top_n)
    ∧ ((∀ r, r ∈ rows prices_df → Float.notna (ChangeRate r) = true →
             Float.lt0 (ChangeRate r) = false) →
       StockAnalyzer.get_top_losers prices_df top_n = []).
Proof.
  intros prices_df top_n. unfold StockAnalyzer.get_top_losers.
  destruct (frame_empty prices_df) eqn:Hempty; simpl; [by split|].
  destruct (has_column "ChangeRate" prices_df) eqn:Hcol; simpl; [|by split].
  unfold StockAnalyzer._convert_to_stock_info. simpl. split.
  - apply Forall_forall. intros s Hs.
    apply list_elem_of_In, in_map_iff in Hs as (row & <- & Hrow).
    apply list_elem_of_In, nfirst_subseteq, elem_of_sort_values in Hrow.
    apply list_elem_of_filter in Hrow as [Hneg _].
    by rewrite convert_row_change_pct.
  - intros Hnone.
    assert (filter (λ r, Float.lt0 (ChangeRate r) = true)
              (filter (λ r, Float.notna (ChangeRate r) = true)
                 (rows prices_df)) = []) as ->.
    { apply elem_of_nil_inv. intros r [Hneg Hr]%list_elem_of_filter.
      apply list_elem_of_filter in Hr as [Hna Hr].
      rewrite (Hnone r Hr Hna) in Hneg. done. }
    unfold Pandas.nfirst. simpl. by rewrite take_nil.
Qed.

Lemma top_losers_only_negative_witness :
  let prices_df :=
    MkTable ["Code"; "Close"; "ChangeRate"]
      [Price "1301" "2024-01-15" "" "" "" (Float.Num 100) Float.NaN Float.NaN
         (Float.Num 2) Float.NaN Float.NaN Float.NaN;
       Price "1302" "2024-01-15" "" "" "" (Float.Num 50) Float.NaN Float.NaN
         (Float.Num 0) Float.NaN Float.NaN Float.NaN;
       Price "1303" "2024-01-15" "" "" "" (Float.Num 70) Float.NaN Float.NaN
         Float.NaN Float.NaN Float.NaN Float.NaN] in
  StockAnalyzer.get_top_losers prices_df 10 = [].
Proof.
  intros prices_df.
  apply (top_losers_only_negative prices_df 10).
  intros r Hr _. simpl in Hr.
  repeat (apply elem_of_cons in Hr as [->|Hr]; [reflexivity|]).
  by apply elem_of_nil in Hr.
Defined.

Example top_losers_of_gainers_only :
  StockAnalyzer.get_top_losers
    (MkTable ["Code"; "Close"; "ChangeRate"]
       [Price "1301" "2024-01-15" "" "" "" (Float.Num 100) Float.NaN Float.NaN
          (Float.Num 2) Float.NaN Float.NaN Float.NaN;
        Price "1302" "2024-01-15" "" "" "" (Float.Num 50) Float.NaN Float.NaN
          (Float.Num 0) Float.NaN Float.NaN Float.NaN;
        Price "1303" "2024-01-15" "" "" "" (Float.Num 70) Float.NaN Float.NaN
          Float.NaN Float.NaN Float.NaN Float.NaN]) 10
  = [].
Proof. reflexivity. Qed.

(** ** Advance-decline ratio *)



Lemma sum_list_zero (l : list nat) :
  (∀ n, n ∈ l → n = 0%nat) → sum_list l = 0%nat.
Proof.
  induction l as [|n l IH]; simpl; [done|]. intros Hz.
  rewrite (Hz n) by apply list_elem_of_here.
  apply IH. intros m Hm. apply Hz. by apply list_elem_of_further.
Qed.













(** ** Moving-average divergence *)

(** C5, at an input where the code departs from it: one historical close
    out of a period of 25 (4 %, below 80 %) still gives the instrument a
    moving average, which enters the divergence and the share above the
    average; [WeeklyTechnicalAnalyzer], on the same data, gives null. *)
Lemma ma_divergence_ignores_coverage :
  let historical_df :=
    MkTable ["Code"; "Date"; "Close"]
      [Price "1301" "2024-01-12" "" "" "" (Float.Num 100) Float.NaN Float.NaN
         Float.NaN Float.NaN Float.NaN Float.NaN] in
  let current_df :=
    MkTable ["Code"; "Date"; "Close"]
      [Price "1301" "2024-01-15" "" "" "" (Float.Num 110) Float.NaN Float.NaN
         Float.NaN Float.NaN Float.NaN Float.NaN] in
  length (filter (λ r, Code r = "1301") (rows historical_df)) = 1%nat
  ∧ TechnicalAnalyzer.ma_value (rows historical_df) 25 "1301" = Float.Num 100
  ∧ (∃ d p,
       TechnicalAnalyzer.calculate_ma_divergence current_df historical_df 25
       = (Some (Float.Num d), Some (Float.Num p))
       ∧ (d == 10)%Q ∧ (p == 100)%Q)
  ∧ WeeklyTechnicalAnalyzer.ma_value (rows historical_df) 25 "1301"
    = Float.NaN.
Proof.
  split_and!; [reflexivity|reflexivity| |reflexivity].
  eexists _, _. split; [vm_compute; reflexivity|]. split; reflexivity.
Qed.

(** ** The API client on a 401 *)

Lemma retry_not_retried {A} n k (body : JQuantsClient.M A) st e st' :
  body st = (Py.Raise e, st') → JQuantsClient.retry_if e = false →
  JQuantsClient.retry n k body st = (Py.Raise e, st').
Proof. intros Hb He. destruct n; simpl; by rewrite Hb, He. Qed.

Lemma attempt_unauthorized endpoint st id_token st1 body rest :
  JQuantsClient.get_auth_headers (JQuantsClient._enforce_rate_limit st).2
  = (Py.Ret id_token, st1) →
  JQuantsClient.api_replies (JQuantsClient.net st1)
  = JQuantsClient.Response 401 body :: rest →
  JQuantsClient.attempt endpoint st
  = (Py.Raise Py.AuthenticationError,
     JQuantsClient.State (JQuantsClient._refresh_token st1) None
       (JQuantsClient._last_request_time st1)
       (JQuantsClient.World
          (JQuantsClient.clock (JQuantsClient.net st1))
          (JQuantsClient.auth_user_replies (JQuantsClient.net st1))
          (JQuantsClient.auth_refresh_replies (JQuantsClient.net st1))
          rest
          ((endpoint, id_token) :: JQuantsClient.sent (JQuantsClient.net st1)))).
Proof.
  intros Hauth Hreply. unfold JQuantsClient.attempt.
  unfold mbind at 1. unfold JQuantsClient.M_bind at 1.
  destruct (JQuantsClient._enforce_rate_limit st) as [[[]|e] st0] eqn:Hrl.
  2: { unfold JQuantsClient._enforce_rate_limit in Hrl.
       by destruct (if bool_decide _ then _ else _). }
  simpl in Hauth.
  unfold mbind at 1. unfold JQuantsClient.M_bind at 1. rewrite Hauth.
  unfold mbind, JQuantsClient.M_bind, JQuantsClient.try_except,
    JQuantsClient.requests_request.
  cbv zeta. rewrite Hreply. reflexivity.
Qed.

(** C8, as the code has it. When the API answers a request with 401,
    [_make_request] invalidates the cached ID token and raises
    [AuthenticationError] to its caller after that single request: the
    retry decorator does not retry authentication failures, so no second
    request is sent and no token is renewed by this call. The token is
    renewed by the next request, which finds no cached ID token. *)
Theorem unauthorized_invalidates_token_without_retry :
  ∀ (endpoint : string) (st st1 : JQuantsClient.state) (id_token : string)
    (body : option (list (string * string)))
    (rest : list JQuantsClient.reply),
    JQuantsClient.get_auth_headers (JQuantsClient._enforce_rate_limit st).2
    = (Py.Ret id_token, st1) →
    JQuantsClient.api_replies (JQuantsClient.net st1)
    = JQuantsClient.Response 401 body :: rest →
    ∃ st',
      JQuantsClient._make_request endpoint st
      = (Py.Raise Py.AuthenticationError, st')
      ∧ JQuantsClient._id_token st' = None
      ∧ JQuantsClient.api_replies (JQuantsClient.net st') = rest
      ∧ JQuantsClient.sent (JQuantsClient.net st')
        = (endpoint, id_token) :: JQuantsClient.sent (JQuantsClient.net st1)
      ∧ JQuantsClient.auth_refresh_replies (JQuantsClient.net st')
        = JQuantsClient.auth_refresh_replies (JQuantsClient.net st1)
      ∧ JQuantsClient.get_id_token false st'
        = JQuantsClient.get_id_token true st'.
Proof.
  intros endpoint st st1 id_token body rest Hauth Hreply.
  eexists. split.
  - unfold JQuantsClient._make_request.
    apply retry_not_retried; [|reflexivity].
    by apply (attempt_unauthorized endpoint st id_token st1 body rest).
  - split_and!; reflexivity.
Qed.

(** C8, as stated, fails: with a cached token, a 401 and then a reply
    that would succeed, the call raises [AuthenticationError] after one
    request; the second reply is never asked for and no new ID token is
    requested. *)
Lemma unauthorized_is_not_retried :
  let cached := JQuantsClient.Token "old" (JQuantsClient.seconds 90000) in
  let ok := JQuantsClient.Response 200 (Some [("info", "[]")]) in
  let renewal := JQuantsClient.Response 200 (Some [("idToken", "new")]) in
  let st :=
    JQuantsClient.State (Some "refresh") (Some cached) 0
      (JQuantsClient.World (JQuantsClient.seconds 10) [] [renewal]
         [JQuantsClient.Response 401 (Some [("error", "Unauthorized")]); ok]
         []) in
  let result := JQuantsClient._make_request "/listed/info" st in
  result.1 = Py.Raise Py.AuthenticationError
  ∧ JQuantsClient.api_requests result.2 = [("/listed/info", "old")]
  ∧ JQuantsClient.api_replies (JQuantsClient.net result.2) = [ok]
  ∧ JQuantsClient.auth_refresh_replies (JQuantsClient.net result.2)
    = [renewal]
  ∧ JQuantsClient._id_token result.2 = None.
Proof. vm_compute. done. Qed.

Lemma unauthorized_invalidates_token_without_retry_witness :
  let cached := JQuantsClient.Token "old" (JQuantsClient.seconds 90000) in
  let ok := JQuantsClient.Response 200 (Some [("info", "[]")]) in
  let st :=
    JQuantsClient.State (Some "refresh") (Some cached) 0
      (JQuantsClient.World (JQuantsClient.seconds 10) [] []
         [JQuantsClient.Response 401 None; ok] []) in
  ∃ st',
    JQuantsClient._make_request "/listed/info" st
    = (Py.Raise Py.AuthenticationError, st')
    ∧ JQuantsClient._id_token st' = None
    ∧ JQuantsClient.api_replies (JQuantsClient.net st') = [ok]
    ∧ JQuantsClient.sent (JQuantsClient.net st')
      = ("/listed/info", "old")
        :: JQuantsClient.sent
             (JQuantsClient.net (JQuantsClient._enforce_rate_limit st).2)
    ∧ JQuantsClient.auth_refresh_replies (JQuantsClient.net st')
      = JQuantsClient.auth_refresh_replies
          (JQuantsClient.net (JQuantsClient._enforce_rate_limit st).2)
    ∧ JQuantsClient.get_id_token false st'
      = JQuantsClient.get_id_token true st'.
Proof.
  intros cached ok st.
  apply (unauthorized_invalidates_token_without_retry "/listed/info" st
           (JQuantsClient._enforce_rate_limit st).2 "old" None [ok]);
    reflexivity.
Defined.

(** ** The weekly aggregate *)

Section sorted.
Context {A : Type} (leb : A → A → bool).
Let R (a b : A) : Prop := leb a b = true.
Hypothesis leb_total : ∀ a b, R a b ∨ R b a.
Hypothesis leb_trans : ∀ a b c, R a b → R b c → R a c.


End sorted.


















Lemma same_aggregate_with_return w prev ret :
  WeeklyDataAggregator.same_aggregate
    (WeeklyDataAggregator.with_return w prev ret) w.
Proof. done. Qed.



Lemma same_aggregate_trans a b c :
  WeeklyDataAggregator.same_aggregate a b →
  WeeklyDataAggregator.same_aggregate b c →
  WeeklyDataAggregator.same_aggregate a c.
Proof.
  intros (? & ? & Hab) (? & ? & Hbc). split_and!; [congruence..|].
  intros rows Hc. by apply Hab, Hbc.
Qed.





(** The left join on the previous week: every output row comes from one
    weekly row, and either no row of the previous week has its code and
    both new columns are null, or its new columns come from such a
    row. *)
Lemma merge_prev_rows prev weekly_agg o :
  o ∈ WeeklyDataAggregator.merge_prev prev weekly_agg →
  ∃ w, w ∈ weekly_agg ∧ WeeklyDataAggregator.same_aggregate o w
    ∧ ((¬ (WeeklyDataAggregator.WCode w ∈ map WeeklyDataAggregator.Code prev)
        ∧ WeeklyDataAggregator.PrevWeekClose o = Float.NaN
        ∧ WeeklyDataAggregator.WeeklyReturn o = Float.NaN)
       ∨ (∃ p, p ∈ prev
            ∧ WeeklyDataAggregator.Code p = WeeklyDataAggregator.WCode w
            ∧ WeeklyDataAggregator.PrevWeekClose o
              = Float.Num (WeeklyDataAggregator.Close p)
            ∧ WeeklyDataAggregator.WeeklyReturn o
              = WeeklyDataAggregator.return_pct
                  (WeeklyDataAggregator.WeekClose w)
                  (Float.Num (WeeklyDataAggregator.Close p)))).
Proof.
  unfold WeeklyDataAggregator.merge_prev.
  intros (w & Ho & Hw)%list_elem_of_bind. exists w. split; [done|].
  destruct (filter _ prev) as [|p0 matches] eqn:Hmatch.
  - apply list_elem_of_singleton in Ho as ->.
    split; [apply same_aggregate_with_return|]. left. split_and!; [|done..].
    intros (p & Hp & Hin)%list_elem_of_In%in_map_iff.
    eapply (filter_nil_not_elem_of _ _ p Hmatch); [done|].
    by apply list_elem_of_In.
  - apply list_elem_of_In, in_map_iff in Ho as (p & <- & Hp).
    split; [apply same_aggregate_with_return|]. right. exists p.
    assert (p ∈ filter (λ p, WeeklyDataAggregator.Code p
                             = WeeklyDataAggregator.WCode w) prev)
      as [Hcode Hin]%list_elem_of_filter
      by (rewrite Hmatch; by apply list_elem_of_In).
    done.
Qed.



Section aggregate_properties.
Implicit Types (daily_dfs : list (list WeeklyDataAggregator.TradedQuote))
  (prev : option (list WeeklyDataAggregator.DailyQuote))
  (o w : WeeklyDataAggregator.WeeklyQuote).

(** The weekly table before the join on the previous week. *)
Let weekly daily_dfs :=
  let combined_df :=
    Pandas.sort_values WeeklyDataAggregator.key_leb (concat daily_dfs) in
  WeeklyDataAggregator.merge_company combined_df
    (WeeklyDataAggregator.groupby_agg combined_df).

Lemma aggregate_unfold daily_dfs prev :
  daily_dfs ≠ [] →
  WeeklyDataAggregator.aggregate daily_dfs prev
  = match prev with
    | Some (p :: prev) =>
        WeeklyDataAggregator.merge_prev (p :: prev) (weekly daily_dfs)
    | _ =>
        map (λ w, WeeklyDataAggregator.with_return w Float.NaN Float.NaN)
          (weekly daily_dfs)
    end.
Proof. by destruct daily_dfs. Qed.







Lemma aggregate_return daily_dfs prev o :
  o ∈ WeeklyDataAggregator.aggregate daily_dfs prev →
  (¬ (WeeklyDataAggregator.WCode o
      ∈ map WeeklyDataAggregator.Code (default [] prev))
   ∧ WeeklyDataAggregator.PrevWeekClose o = Float.NaN
   ∧ WeeklyDataAggregator.WeeklyReturn o = Float.NaN)
  ∨ (∃ p, p ∈ default [] prev
       ∧ WeeklyDataAggregator.Code p = WeeklyDataAggregator.WCode o
       ∧ WeeklyDataAggregator.PrevWeekClose o
         = Float.Num (WeeklyDataAggregator.Close p)
       ∧ WeeklyDataAggregator.WeeklyReturn o
         = WeeklyDataAggregator.return_pct
             (WeeklyDataAggregator.WeekClose o)
             (Float.Num (WeeklyDataAggregator.Close p))).
Proof.
  destruct (decide (daily_dfs = [])) as [->|Hne];
    [by intros ?%elem_of_nil|].
  rewrite aggregate_unfold by done.
  assert (o ∈ map (λ w, WeeklyDataAggregator.with_return w Float.NaN
                          Float.NaN) (weekly daily_dfs) →
          WeeklyDataAggregator.PrevWeekClose o = Float.NaN
          ∧ WeeklyDataAggregator.WeeklyReturn o = Float.NaN) as Hmap
    by (by intros (w & <- & Hw)%list_elem_of_In%in_map_iff).
  destruct prev as [[|p prev]|]; simpl.
  - intros Ho. left. split; [by intros ?%elem_of_nil|by apply Hmap].
  - intros (w & Hw & (Hcode & Hclose & _) & Hcases)%merge_prev_rows.
    rewrite Hcode, Hclose.
    destruct Hcases as [?|(q & Hq & Hqc & ? & ?)]; [by left|].
    right. by exists q.
  - intros Ho. left. split; [by intros ?%elem_of_nil|by apply Hmap].
Qed.
End aggregate_properties.

Section collect_properties.
Variable pd_DataFrame :
  DataFetcher.pyobj (list WeeklyDataAggregator.DailyQuote)
  → Py.outcome (list WeeklyDataAggregator.DailyQuote).
Variable rename :
  list (string * string) → list WeeklyDataAggregator.DailyQuote
  → list WeeklyDataAggregator.DailyQuote.

(** A collected table: the rows, not none, of one trading day. *)
Let table_of (days : list Z) (df : list WeeklyDataAggregator.TradedQuote)
  : Prop :=
  df ≠ [] ∧ ∃ day, day ∈ days
                   ∧ Forall (λ r, WeeklyDataAggregator.TradeDate r = day) df.

Lemma stamp_table_of day days q df :
  day ∈ days → table_of days (WeeklyDataAggregator.stamp day (q :: df)).
Proof.
  intros Hday. split; [done|]. exists day. split; [done|].
  apply Forall_forall. intros r Hr.
  by apply list_elem_of_In, in_map_iff in Hr as (? & <- & _).
Qed.

(** The loop never raises: a day without a table is skipped. *)
Lemma collect_returns fetcher trading_days acc st :
  ∃ daily_dfs st',
    WeeklyDataAggregator.collect pd_DataFrame rename fetcher trading_days
      acc st = (Py.Ret (acc ++ daily_dfs), st')
    ∧ Forall (table_of trading_days) daily_dfs.
Proof.
  revert acc st.
  induction trading_days as [|day rest IH]; intros acc st.
  { exists [], st. by rewrite app_nil_r. }
  assert (∀ dfs, Forall (table_of rest) dfs →
                 Forall (table_of (day :: rest)) dfs) as Hweaken.
  { intros dfs Hdfs. eapply Forall_impl; [exact Hdfs|].
    intros df (Hne & d & Hd & Hall). split; [done|]. exists d. split; [by apply list_elem_of_further|done]. }
  assert (∀ acc' st1,
    ∃ daily_dfs st',
      WeeklyDataAggregator.collect pd_DataFrame rename fetcher rest
        acc' st1 = (Py.Ret (acc' ++ daily_dfs), st')
      ∧ Forall (table_of (day :: rest)) daily_dfs) as Hskip.
  { intros acc' st1. destruct (IH acc' st1) as (dfs & st' & Hc & Hall).
    exists dfs, st'. split; [done|by apply Hweaken]. }
  assert (∀ q df st1,
    ∃ daily_dfs st',
      WeeklyDataAggregator.collect pd_DataFrame rename fetcher rest
        (acc ++ [WeeklyDataAggregator.stamp day (q :: df)]) st1
      = (Py.Ret (acc ++ daily_dfs), st')
      ∧ Forall (table_of (day :: rest)) daily_dfs) as Htake.
  { intros q df st1.
    destruct (IH (acc ++ [WeeklyDataAggregator.stamp day (q :: df)]) st1)
      as (dfs & st' & Hc & Hall).
    exists (WeeklyDataAggregator.stamp day (q :: df) :: dfs), st'.
    split; [by rewrite Hc, <-app_assoc|].
    constructor; [|by apply Hweaken].
    apply stamp_table_of, list_elem_of_here. }
  cbn [WeeklyDataAggregator.collect]. cbv zeta.
  set (lookup := CacheManager.get _ _ _).
  set (st1 := DataFetcher.State _ _ _).
  destruct (lookup.1) as [[|q df]|], fetcher as [cl|];
    try apply Htake; try apply Hskip.
  all: unfold DataFetcher.fetch_daily_quotes;
    destruct (fetch_returns pd_DataFrame rename
                (DataFetcher.daily_quotes day None) false cl st1)
      as (df' & st2 & -> & _);
    destruct df' as [|q' df']; [apply Hskip|apply Htake].
Qed.

Lemma aggregate_daily_quotes_returns fetcher trading_days prev st :
  ∃ daily_dfs st',
    WeeklyDataAggregator.collect pd_DataFrame rename fetcher trading_days
      [] st = (Py.Ret daily_dfs, st')
    ∧ Forall (table_of trading_days) daily_dfs
    ∧ WeeklyDataAggregator.aggregate_daily_quotes pd_DataFrame rename
        fetcher trading_days prev st
      = (Py.Ret (WeeklyDataAggregator.aggregate daily_dfs prev), st').
Proof.
  destruct (collect_returns fetcher trading_days [] st)
    as (dfs & st' & Hc & Hall).
  exists dfs, st'. split_and!; [done|done|].
  unfold WeeklyDataAggregator.aggregate_daily_quotes.
  destruct trading_days as [|day rest].
  - simpl in Hc. injection Hc as <- <-. done.
  - by rewrite Hc.
Qed.
End collect_properties.



(** The week of the specification: five days give open 10, close 14.5,
    the largest high, the smallest low, the summed volume and five
    trading days; without Wednesday, four trading days and the same open
    and close. *)
Example sample_week_aggregate :
  ∃ w5 w4,
    (WeeklyDataAggregator.aggregate_daily_quotes Sample.pd_DataFrame
       Sample.rename None Sample.days None (Sample.state_of Sample.days)).1
    = Py.Ret [w5]
    ∧ (WeeklyDataAggregator.aggregate_daily_quotes Sample.pd_DataFrame
         Sample.rename None Sample.days (Some Sample.prev_week)
         (Sample.state_of [738900; 738901; 738903; 738904])).1
      = Py.Ret [w4]
    ∧ WeeklyDataAggregator.WeekOpen w5 = 10%Q
    ∧ WeeklyDataAggregator.WeekClose w5 = (29 # 2)%Q
    ∧ WeeklyDataAggregator.WeekHigh w5 = 15%Q
    ∧ WeeklyDataAggregator.WeekLow w5 = 9%Q
    ∧ WeeklyDataAggregator.WeekVolume w5 = 1500%Q
    ∧ WeeklyDataAggregator.TradingDays w5 = 5%nat
    ∧ WeeklyDataAggregator.WeeklyReturn w5 = Float.NaN
    ∧ WeeklyDataAggregator.WeekOpen w4 = 10%Q
    ∧ WeeklyDataAggregator.WeekClose w4 = (29 # 2)%Q
    ∧ WeeklyDataAggregator.TradingDays w4 = 4%nat
    ∧ ∃ pct, WeeklyDataAggregator.WeeklyReturn w4 = Float.Num pct
             ∧ (pct == 45)%Q.
Proof.
  eexists _, _. split; [vm_compute; reflexivity|].
  split; [vm_compute; reflexivity|].
  split_and!; try reflexivity. eexists. split; reflexivity.
Qed.

(** ** The weekly return *)

Lemma return_pct_finite week_close prev_close :
  ¬ (prev_close == 0)%Q →
  WeeklyDataAggregator.return_pct week_close (Float.Num prev_close)
  = Float.Num ((week_close - prev_close) / prev_close * 100).
Proof.
  intros Hnz. unfold WeeklyDataAggregator.return_pct. cbn [Float.sub Float.div].
  destruct (Qeq_bool prev_close 0) eqn:Hz; [|done].
  by apply Qeq_bool_iff in Hz.
Qed.

(** C6. A row of the weekly table whose code has no row in the table of
    previous closes, which is every row when no such table or an empty
    one is given, has a null [WeeklyReturn] (and a null [PrevWeekClose]),
    never zero. A row whose code has one gets
    (WeekClose - PrevWeekClose) / PrevWeekClose × 100 for the close of a
    previous row of that code. *)
Theorem weekly_return_null_without_previous_close :
  ∀ (pd_DataFrame :
       DataFetcher.pyobj (list WeeklyDataAggregator.DailyQuote)
       → Py.outcome (list WeeklyDataAggregator.DailyQuote))
    (rename : list (string * string) → list WeeklyDataAggregator.DailyQuote
              → list WeeklyDataAggregator.DailyQuote)
    (fetcher : option (DataFetcher.client (list WeeklyDataAggregator.DailyQuote)))
    (trading_days : list Z)
    (prev_week_close_df : option (list WeeklyDataAggregator.DailyQuote))
    (st : DataFetcher.state (list WeeklyDataAggregator.DailyQuote)),
    ∃ weekly st',
      WeeklyDataAggregator.aggregate_daily_quotes pd_DataFrame rename
        fetcher trading_days prev_week_close_df st = (Py.Ret weekly, st')
      ∧ ∀ w, w ∈ weekly →
          let previous := default [] prev_week_close_df in
          (¬ (WeeklyDataAggregator.WCode w
              ∈ map WeeklyDataAggregator.Code previous) →
           WeeklyDataAggregator.WeeklyReturn w = Float.NaN
           ∧ WeeklyDataAggregator.PrevWeekClose w = Float.NaN
           ∧ WeeklyDataAggregator.WeeklyReturn w ≠ Float.Num 0)
          ∧ (WeeklyDataAggregator.WCode w
             ∈ map WeeklyDataAggregator.Code previous →
             ∃ p, p ∈ previous
               ∧ WeeklyDataAggregator.Code p = WeeklyDataAggregator.WCode w
               ∧ WeeklyDataAggregator.PrevWeekClose w
                 = Float.Num (WeeklyDataAggregator.Close p)
               ∧ WeeklyDataAggregator.WeeklyReturn w
                 = WeeklyDataAggregator.return_pct
                     (WeeklyDataAggregator.WeekClose w)
                     (Float.Num (WeeklyDataAggregator.Close p))
               ∧ (¬ (WeeklyDataAggregator.Close p == 0)%Q →
                  WeeklyDataAggregator.WeeklyReturn w
                  = Float.Num ((WeeklyDataAggregator.WeekClose w
                                - WeeklyDataAggregator.Close p)
                               / WeeklyDataAggregator.Close p * 100))).
Proof.
  intros pd_DataFrame rename fetcher trading_days prev st.
  destruct (aggregate_daily_quotes_returns pd_DataFrame rename fetcher
              trading_days prev st) as (daily_dfs & st' & _ & _ & Hagg).
  eexists _, st'. split; [exact Hagg|].
  intros w Hw previous.
  destruct (aggregate_return _ _ _ Hw)
    as [(Hnone & Hprev & Hret)|(p & Hp & Hcode & Hprev & Hret)].
  - split; [|done]. intros _. split_and!; [done|done|]. by rewrite Hret.
  - split.
    + intros []. apply list_elem_of_In, in_map_iff. exists p.
      split; [done|by apply list_elem_of_In].
    + intros _. exists p. split_and!; [done..|].
      intros Hnz. rewrite Hret. by apply return_pct_finite.
Qed.


Lemma weekly_return_null_without_previous_close_witness :
  let unrelated :=
    [WeeklyDataAggregator.Quote "9999" 1 1 1 1 1 1
       (WeeklyDataAggregator.Info None None None)] in
  ∃ w st',
    WeeklyDataAggregator.aggregate_daily_quotes Sample.pd_DataFrame
      Sample.rename None Sample.days (Some unrelated)
      (Sample.state_of Sample.days) = (Py.Ret [w], st')
    ∧ WeeklyDataAggregator.WCode w = "1301"
    ∧ WeeklyDataAggregator.WeeklyReturn w = Float.NaN
    ∧ WeeklyDataAggregator.PrevWeekClose w = Float.NaN
    ∧ WeeklyDataAggregator.WeeklyReturn w ≠ Float.Num 0.
Proof.
  intros unrelated.
  destruct (weekly_return_null_without_previous_close Sample.pd_DataFrame
              Sample.rename None Sample.days (Some unrelated)
              (Sample.state_of Sample.days))
    as (weekly & st' & Hagg & Hrows).
  vm_compute in Hagg. injection Hagg as <- <-.
  eexists _, _. split; [reflexivity|]. split; [reflexivity|].
  eapply Hrows; [apply list_elem_of_here|].
  simpl. intros Hin. apply list_elem_of_singleton in Hin. discriminate Hin.
Defined.


(** * Further properties *)

(** ** The cache: round trips, overwriting, independence of keys *)

Section cache_round_trips.
Context {T : Type} `{Frame T}.
Implicit Types (db : gmap string (CacheManager.entry T)) (key : string).

Lemma get_lookup_other now key k db :
  key ≠ k → (CacheManager.get now key db).2 !! k = db !! k.
Proof.
  intros Hne. unfold CacheManager.get, CacheManager._sanitize_key,
    CacheManager._remove_entry.
  destruct (db !! key) as [row|]; [|done].
  case_bool_decide; simpl; [by rewrite lookup_delete_ne|].
  destruct (CacheManager._deserialize_dataframe _); simpl; [done|].
  by rewrite lookup_delete_ne.
Qed.

(** What [get] returns depends on the row of its key only. *)
Lemma get_result_lookup now key db db' :
  db !! key = db' !! key →
  (CacheManager.get now key db).1 = (CacheManager.get now key db').1.
Proof.
  intros Heq. unfold CacheManager.get, CacheManager._sanitize_key.
  rewrite <-Heq. destruct (db !! key) as [row|]; [|done].
  case_bool_decide; [done|].
  by destruct (CacheManager._deserialize_dataframe _).
Qed.

Lemma set_lookup_other now key k df ttl db :
  key ≠ k → CacheManager.set now key df ttl db !! k = db !! k.
Proof.
  intros Hne. destruct (frame_empty df) eqn:Hempty.
  - by rewrite set_empty.
  - rewrite set_nonempty by done. by rewrite lookup_insert_ne.
Qed.
End cache_round_trips.

(** X1. A table that is not empty, stored with [set] at time [now], is
    what [get] returns for its key at every time strictly before
    [now + ttl] (24 hours when no TTL is given), and from that time on
    [get] returns nothing. *)
Theorem set_get_round_trip :
  ∀ (T : Type) (F : Frame T) (now later : Z) (key : string) (df : T)
    (ttl_hours : option Z) (db : gmap string (CacheManager.entry T)),
    frame_empty df = false →
    (CacheManager.get later key
       (CacheManager.set now key df ttl_hours db)).1
    = if bool_decide
           (later < now + CacheManager.hours (default 24 ttl_hours))
      then Some df else None.
Proof.
  intros T F now later key df ttl db Hne.
  rewrite set_nonempty by done.
  unfold CacheManager.get, CacheManager._sanitize_key.
  rewrite lookup_insert_eq. cbn [CacheManager.expires_at CacheManager.data].
  unfold CacheManager.default_ttl_hours.
  repeat case_bool_decide; try lia; done.
Qed.

Lemma set_get_round_trip_witness :
  (CacheManager.get 10 "listed_info"
     (CacheManager.set 0 "listed_info" [7; 8] (Some 1)
        (∅ : gmap string (CacheManager.entry (list Z))))).1
  = if bool_decide (10 < 0 + CacheManager.hours (default 24 (Some 1)))
    then Some [7; 8] else None.
Proof.
  apply (set_get_round_trip (list Z) _ 0 10 "listed_info" [7; 8] (Some 1) ∅).
  reflexivity.
Defined.



(** X3. The methods that take a key touch the row of that key only:
    after [get], [set] or [invalidate] on [key], every other key has the
    row it had, and a [get] of another key returns what it would have
    returned before. After [invalidate] the key itself has no row. *)
Theorem operations_on_a_key_leave_other_keys :
  ∀ (T : Type) (F : Frame T) (now later : Z) (key k : string) (df : T)
    (ttl_hours : option Z) (db : gmap string (CacheManager.entry T)),
    key ≠ k →
    ((CacheManager.get now key db).2 !! k = db !! k
     ∧ CacheManager.set now key df ttl_hours db !! k = db !! k
     ∧ CacheManager.invalidate key db !! k = db !! k)
    ∧ ((CacheManager.get later k (CacheManager.get now key db).2).1
       = (CacheManager.get later k db).1
       ∧ (CacheManager.get later k
            (CacheManager.set now key df ttl_hours db)).1
         = (CacheManager.get later k db).1
       ∧ (CacheManager.get later k (CacheManager.invalidate key db)).1
         = (CacheManager.get later k db).1)
    ∧ CacheManager.invalidate key db !! key = None
    ∧ (CacheManager.get later key (CacheManager.invalidate key db)).1 = None.
Proof.
  intros T F now later key k df ttl db Hne.
  assert (CacheManager.invalidate key db !! k = db !! k) as Hinv.
  { unfold CacheManager.invalidate, CacheManager._remove_entry,
      CacheManager._sanitize_key. by rewrite lookup_delete_ne. }
  assert (CacheManager.invalidate key db !! key = None) as Hgone.
  { unfold CacheManager.invalidate, CacheManager._remove_entry,
      CacheManager._sanitize_key. apply lookup_delete_eq. }
  split_and!.
  - by apply get_lookup_other.
  - by apply set_lookup_other.
  - done.
  - by apply get_result_lookup, get_lookup_other.
  - by apply get_result_lookup, set_lookup_other.
  - by apply get_result_lookup.
  - done.
  - by rewrite get_missing.
Qed.

Lemma operations_on_a_key_leave_other_keys_witness :
  let db : gmap string (CacheManager.entry (list Z)) :=
    {[ "indices_2024-01-15" :=
         CacheManager.Entry (CacheManager.Pickled [1]) 1 0 100 ]} in
  (CacheManager.get 50 "indices_2024-01-15"
     (CacheManager.set 10 "listed_info" [7; 8] None db)).1 = Some [1]
  ∧ (CacheManager.get 50 "listed_info"
       (CacheManager.invalidate "listed_info"
          (CacheManager.set 10 "listed_info" [7; 8] None db))).1 = None.
Proof.
  intros db. split.
  - destruct (operations_on_a_key_leave_other_keys (list Z) _ 10 50
                "listed_info" "indices_2024-01-15" [7; 8] None db)
      as (_ & (_ & -> & _) & _); [discriminate|reflexivity].
  - destruct (operations_on_a_key_leave_other_keys (list Z) _ 10 50
                "listed_info" "indices_2024-01-15" [7; 8] None
                (CacheManager.set 10 "listed_info" [7; 8] None db))
      as (_ & _ & _ & ->); [discriminate|reflexivity].
Defined.

(** ** The cache: sweeping expired rows *)

Section cache_sweep.
Context {T : Type} `{Frame T}.
Implicit Types (db : gmap string (CacheManager.entry T)) (key : string).

Lemma cleanup_expired_lookup now db k e :
  (CacheManager.cleanup_expired now db).2 !! k = Some e
  ↔ db !! k = Some e ∧ now <= CacheManager.expires_at e.
Proof.
  unfold CacheManager.cleanup_expired. simpl.
  rewrite map_lookup_filter_Some. simpl. split; intros [? ?]; split; [done|lia|done|lia].
Qed.

Lemma cleanup_expired_count now db :
  ((CacheManager.cleanup_expired now db).1
   + size (CacheManager.cleanup_expired now db).2)%nat = size db.
Proof.
  unfold CacheManager.cleanup_expired. simpl.
  rewrite <-map_size_disj_union by apply map_disjoint_filter_complement.
  by rewrite map_filter_union_complement.
Qed.
End cache_sweep.

(** X4. [cleanup_expired] removes exactly the rows with
    [expires_at < now] and returns their number; a row that expires at
    [now] exactly is kept, although [get] already treats it as expired.
    The sweep changes no answer: at [now] and at any later time [get]
    returns for every key what it would have returned without it. *)
Theorem cleanup_expired_removes_only_dead_rows :
  ∀ (T : Type) (F : Frame T) (now : Z)
    (db : gmap string (CacheManager.entry T)),
    let swept := (CacheManager.cleanup_expired now db).2 in
    ((CacheManager.cleanup_expired now db).1 + size swept)%nat = size db
    ∧ (∀ k e, swept !! k = Some e
              ↔ db !! k = Some e ∧ now <= CacheManager.expires_at e)
    ∧ (∀ later k, now <= later →
         (CacheManager.get later k swept).1 = (CacheManager.get later k db).1).
Proof.
  intros T F now db swept. split_and!.
  - apply cleanup_expired_count.
  - intros k e. apply cleanup_expired_lookup.
  - intros later k Hlater.
    destruct (db !! k) as [e|] eqn:Hk.
    + destruct (decide (now <= CacheManager.expires_at e)) as [Hkeep|Hdead].
      * apply get_result_lookup. rewrite Hk.
        by apply cleanup_expired_lookup.
      * assert (swept !! k = None) as Hnone.
        { destruct (swept !! k) as [e'|] eqn:Hs; [|done].
          apply cleanup_expired_lookup in Hs as [Hs ?].
          rewrite Hk in Hs. injection Hs as <-. lia. }
        rewrite (get_missing _ _ _ Hnone).
        rewrite (get_expired _ _ _ _ Hk) by lia. done.
    + apply get_result_lookup. rewrite Hk.
      destruct (swept !! k) as [e'|] eqn:Hs; [|done].
      apply cleanup_expired_lookup in Hs as [Hs _]. congruence.
Qed.

Lemma cleanup_expired_removes_only_dead_rows_witness :
  let db : gmap string (CacheManager.entry (list Z)) :=
    {[ "old" := CacheManager.Entry (CacheManager.Pickled [1]) 1 0 99;
       "edge" := CacheManager.Entry (CacheManager.Pickled [2]) 1 0 100;
       "fresh" := CacheManager.Entry (CacheManager.Pickled [3]) 1 0 101 ]} in
  (CacheManager.cleanup_expired 100 db).1 = 1%nat
  ∧ (CacheManager.cleanup_expired 100 db).2 !! "old" = None
  ∧ is_Some ((CacheManager.cleanup_expired 100 db).2 !! "edge")
  ∧ (CacheManager.get 100 "edge" (CacheManager.cleanup_expired 100 db).2).1
    = (CacheManager.get 100 "edge" db).1
  ∧ (CacheManager.get 100 "edge" db).1 = None.
Proof.
  intros db.
  destruct (cleanup_expired_removes_only_dead_rows (list Z) _ 100 db)
    as (_ & _ & Hsame).
  split_and!; [reflexivity|reflexivity|by eexists| |reflexivity].
  apply Hsame. lia.
Defined.

(** ** The cache: what a database built by the methods holds *)

Section cache_invariant.
Context {T : Type} `{Frame T}.
Implicit Types (db : gmap string (CacheManager.entry T)).

Lemma step_written db c :
  map_Forall (λ _ e, CacheManager.written e) db →
  map_Forall (λ _ e, CacheManager.written e) (CacheManager.step db c).
Proof.
  intros Hinv. destruct c as [now key|now key df ttl|key| |now]; simpl.
  - unfold CacheManager.get, CacheManager._remove_entry.
    destruct (db !! _) as [row|]; [|done].
    case_bool_decide; simpl; [by apply map_Forall_delete|].
    destruct (CacheManager._deserialize_dataframe _); simpl;
      [done|by apply map_Forall_delete].
  - destruct (frame_empty df) eqn:Hempty.
    + by rewrite set_empty.
    + rewrite set_nonempty by done. apply map_Forall_insert_2; [|done].
      by exists df.
  - by apply map_Forall_delete.
  - apply map_Forall_empty.
  - intros k e [Hk _]%cleanup_expired_lookup. by apply (Hinv k).
Qed.

Lemma run_written (calls : list (CacheManager.call (T := T))) :
  map_Forall (λ _ e, CacheManager.written e) (CacheManager.run calls).
Proof.
  unfold CacheManager.run.
  assert (∀ db, map_Forall (λ _ e, CacheManager.written e) db →
                map_Forall (λ _ e, CacheManager.written e)
                  (foldl CacheManager.step db calls)) as Hfold.
  { induction calls as [|c calls IH]; intros db Hdb; [done|].
    simpl. by apply IH, step_written. }
  apply Hfold, map_Forall_empty.
Qed.
End cache_invariant.

(** X5. Whatever sequence of [get], [set], [invalidate], [clear_all] and
    [cleanup_expired] calls, at whatever times, has been made on a new
    database, every row it holds is the pickle of a table that is not
    empty, with [row_count] the length of that table; on such a database
    [get] returns the stored table exactly when [now < expires_at]. *)
Theorem reachable_cache_rows_are_readable :
  ∀ (T : Type) (F : Frame T) (calls : list (CacheManager.call (T := T)))
    (key : string) (row : CacheManager.entry T),
    CacheManager.run calls !! key = Some row →
    ∃ df,
      CacheManager.data row = CacheManager.Pickled df
      ∧ frame_empty df = false
      ∧ CacheManager.row_count row = frame_len df
      ∧ ∀ now,
          (CacheManager.get now key (CacheManager.run calls)).1
          = if bool_decide (now < CacheManager.expires_at row)
            then Some df else None.
Proof.
  intros T F calls key row Hrow.
  destruct (run_written calls key row Hrow) as (df & Hdata & Hne & Hcount).
  exists df. split_and!; [done..|]. intros now.
  unfold CacheManager.get, CacheManager._sanitize_key. rewrite Hrow, Hdata.
  repeat case_bool_decide; try lia; done.
Qed.

Lemma reachable_cache_rows_are_readable_witness :
  let calls : list (CacheManager.call (T := list Z)) :=
    [CacheManager.Call_set 0 "a" [1; 2] (Some 1);
     CacheManager.Call_set 1 "b" [] None;
     CacheManager.Call_get 2 "a";
     CacheManager.Call_cleanup_expired 3;
     CacheManager.Call_invalidate "c"] in
  ∃ row df,
    CacheManager.run calls !! "a" = Some row
    ∧ CacheManager.run calls !! "b" = None
    ∧ CacheManager.data row = CacheManager.Pickled df
    ∧ frame_empty df = false
    ∧ CacheManager.row_count row = frame_len df
    ∧ ∀ now,
        (CacheManager.get now "a" (CacheManager.run calls)).1
        = if bool_decide (now < CacheManager.expires_at row)
          then Some df else None.
Proof.
  intros calls.
  exists (CacheManager.Entry (CacheManager.Pickled [1; 2]) 2 0
            (CacheManager.hours 1)).
  destruct (reachable_cache_rows_are_readable (list Z) _ calls "a"
              (CacheManager.Entry (CacheManager.Pickled [1; 2]) 2 0
                 (CacheManager.hours 1)))
    as (df & Hdata & Hne & Hcount & Hget); [reflexivity|].
  exists df. split_and!; [reflexivity|reflexivity|done..].
Defined.


(** ** The fetcher: rate limit, cache hits, cache population *)

Section fetcher_cache_policy.
Context {T : Type} `{Frame T}.
Variable pd_DataFrame : DataFetcher.pyobj T → Py.outcome T.
Variable rename : list (string * string) → T → T.

Lemma perform_fetch r cl (st : DataFetcher.state T) :
  DataFetcher.perform pd_DataFrame rename r cl st
  = DataFetcher.fetch pd_DataFrame rename (DataFetcher.endpoint_of r)
      (DataFetcher.force_refresh_of r) cl st.
Proof. by destruct r. Qed.

Lemma state_eta (st : DataFetcher.state T) :
  DataFetcher.State (DataFetcher.cache st) (DataFetcher._last_request_time st)
    (DataFetcher.clock st) = st.
Proof. by destruct st. Qed.


Lemma get_hit_keeps now key (db : gmap string (CacheManager.entry T)) df :
  (CacheManager.get now key db).1 = Some df →
  (CacheManager.get now key db).2 = db.
Proof.
  unfold CacheManager.get.
  destruct (db !! _) as [row|]; [|done].
  case_bool_decide; [done|].
  by destruct (CacheManager._deserialize_dataframe _).
Qed.

Lemma fetch_hit ep cl (st : DataFetcher.state T) df :
  (CacheManager.get (DataFetcher.clock st) (DataFetcher.cache_key ep)
     (DataFetcher.cache st)).1 = Some df →
  DataFetcher.fetch pd_DataFrame rename ep false cl st = (Py.Ret df, st).
Proof.
  intros Hhit. unfold DataFetcher.fetch. cbv zeta. cbn [fst snd].
  rewrite Hhit, (get_hit_keeps _ _ _ _ Hhit). by rewrite state_eta.
Qed.

End fetcher_cache_policy.


(** X7. A [fetch_*] call without [force_refresh] whose key has a valid
    cached table returns that table and leaves the fetcher as it was: the
    client is not called and the time of the last request is not
    touched. *)
Theorem fetch_hit_never_calls_the_api :
  ∀ (T : Type) (F : Frame T)
    (pd_DataFrame : DataFetcher.pyobj T → Py.outcome T)
    (rename : list (string * string) → T → T)
    (r : DataFetcher.request) (cl : DataFetcher.client T)
    (st : DataFetcher.state T) (df : T),
    DataFetcher.force_refresh_of r = false →
    (CacheManager.get (DataFetcher.clock st)
       (DataFetcher.cache_key (DataFetcher.endpoint_of r))
       (DataFetcher.cache st)).1 = Some df →
    DataFetcher.perform pd_DataFrame rename r cl st = (Py.Ret df, st).
Proof.
  intros T F pd_DataFrame rename r cl st df Hforce Hhit.
  rewrite perform_fetch, Hforce. by apply fetch_hit.
Qed.

Lemma fetch_hit_never_calls_the_api_witness :
  DataFetcher.perform Sample.pd_DataFrame Sample.rename
    (DataFetcher.Daily_quotes Sample.monday None false)
    (DataFetcher.Client (λ _, Some (λ _, Py.Raise Py.ValueError)))
    (Sample.state_of Sample.days)
  = (Py.Ret [Sample.quote "1301" 0], Sample.state_of Sample.days).
Proof.
  apply (fetch_hit_never_calls_the_api _ _ Sample.pd_DataFrame Sample.rename
           (DataFetcher.Daily_quotes Sample.monday None false)
           (DataFetcher.Client (λ _, Some (λ _, Py.Raise Py.ValueError)))
           (Sample.state_of Sample.days)); reflexivity.
Defined.

Section fetcher_population.
Context {T : Type} `{Frame T}.
Variable pd_DataFrame : DataFetcher.pyobj T → Py.outcome T.
Variable rename : list (string * string) → T → T.

(** A fetch that misses the cache and gets a table that is not empty
    returns it and stores it, at the time of the API call. *)
Lemma fetch_miss_success ep (force_refresh : bool) cl
  (st : DataFetcher.state T) response df0 :
  (if force_refresh then @None T
   else (CacheManager.get (DataFetcher.clock st) (DataFetcher.cache_key ep)
           (DataFetcher.cache st)).1) = None →
  DataFetcher.call_method cl (DataFetcher.method_name ep)
    (DataFetcher.call_kwargs ep) = Py.Ret response →
  response ≠ DataFetcher.PNone →
  DataFetcher.to_frame pd_DataFrame ep response = Py.Ret df0 →
  let df := match DataFetcher.column_mapping ep with
            | [] => df0
            | m => rename m df0
            end in
  frame_empty df = false →
  DataFetcher.fetch pd_DataFrame rename ep force_refresh cl st
  = (Py.Ret df,
     DataFetcher.cache_set ep df (DataFetcher.at_call ep force_refresh st)).
Proof.
  intros Hmiss Hcall Hresp Hframe df Hne.
  unfold DataFetcher.fetch, DataFetcher.at_call.
  set (lookup := if force_refresh then _ else _).
  assert (lookup.1 = None) as Hl1
    by (unfold lookup; by destruct force_refresh).
  assert ((if force_refresh then DataFetcher.cache st
           else (CacheManager.get (DataFetcher.clock st)
                   (DataFetcher.cache_key ep) (DataFetcher.cache st)).2)
          = lookup.2) as ->
    by (unfold lookup; by destruct force_refresh).
  rewrite Hl1. unfold DataFetcher._make_api_call. rewrite Hcall.
  cbn [Py.try_except].
  assert (∀ st0,
            DataFetcher.process pd_DataFrame rename ep response st0
            = Py.Ret (df, DataFetcher.cache_set ep df st0)) as Hprocess.
  { intros st0. unfold DataFetcher.process. rewrite Hframe.
    cbn [mbind outcome_bind Py.bind]. fold df. rewrite Hne.
    by destruct (DataFetcher.guard_empty ep). }
  destruct response; [done|by rewrite Hprocess..].
Qed.
End fetcher_population.

(** X8. When a [fetch_*] call does not find its table in the cache (or
    is forced) and the API returns a response that becomes a table that
    is not empty, the call returns that table, and every later call for
    the same dataset without [force_refresh], made less than the
    dataset's TTL after the API call, returns the same table from the
    cache without reaching the client. *)
Theorem fetched_table_is_served_from_cache :
  ∀ (T : Type) (F : Frame T)
    (pd_DataFrame : DataFetcher.pyobj T → Py.outcome T)
    (rename : list (string * string) → T → T)
    (r : DataFetcher.request) (cl : DataFetcher.client T)
    (st : DataFetcher.state T) (response : DataFetcher.pyobj T) (df0 : T),
    let ep := DataFetcher.endpoint_of r in
    let df := match DataFetcher.column_mapping ep with
              | [] => df0
              | m => rename m df0
              end in
    (if DataFetcher.force_refresh_of r then @None T
     else (CacheManager.get (DataFetcher.clock st) (DataFetcher.cache_key ep)
             (DataFetcher.cache st)).1) = None →
    DataFetcher.call_method cl (DataFetcher.method_name ep)
      (DataFetcher.call_kwargs ep) = Py.Ret response →
    response ≠ DataFetcher.PNone →
    DataFetcher.to_frame pd_DataFrame ep response = Py.Ret df0 →
    frame_empty df = false →
    ∃ st1,
      DataFetcher.perform pd_DataFrame rename r cl st = (Py.Ret df, st1)
      ∧ ∀ (r2 : DataFetcher.request) (cl2 : DataFetcher.client T)
          (last later : Z),
          DataFetcher.endpoint_of r2 = ep →
          DataFetcher.force_refresh_of r2 = false →
          later < DataFetcher.clock st1
                  + CacheManager.hours (DataFetcher.ttl_hours ep) →
          DataFetcher.perform pd_DataFrame rename r2 cl2
            (DataFetcher.State (DataFetcher.cache st1) last later)
          = (Py.Ret df, DataFetcher.State (DataFetcher.cache st1) last later).
Proof.
  intros T F pd_DataFrame rename r cl st response df0 ep df
    Hmiss Hcall Hresp Hframe Hne.
  eexists. split.
  - rewrite perform_fetch.
    by apply (fetch_miss_success pd_DataFrame rename ep _ cl st response df0).
  - intros r2 cl2 last later Hep Hforce Hlater.
    apply fetch_hit_never_calls_the_api; [done|]. rewrite Hep.
    cbn [DataFetcher.cache DataFetcher.clock DataFetcher.cache_set] in *.
    rewrite set_get_round_trip by done.
    by rewrite bool_decide_eq_true_2.
Qed.

Lemma fetched_table_is_served_from_cache_witness :
  let table := [Sample.quote "1301" 0] in
  let cl : DataFetcher.client (list WeeklyDataAggregator.DailyQuote) :=
    DataFetcher.Client
      (λ name, if decide (name = "get_daily_quotes")
               then Some (λ _, Py.Ret (DataFetcher.PFrame table)) else None) in
  let r := DataFetcher.Daily_quotes Sample.monday None false in
  let st := DataFetcher.State ∅ 0 5000000 in
  ∃ st1,
    DataFetcher.perform Sample.pd_DataFrame Sample.rename r cl st
    = (Py.Ret table, st1)
    ∧ ∀ cl2,
        DataFetcher.perform Sample.pd_DataFrame Sample.rename r cl2
          (DataFetcher.State (DataFetcher.cache st1) 0 6000000)
        = (Py.Ret table, DataFetcher.State (DataFetcher.cache st1) 0 6000000).
Proof.
  intros table cl r st.
  destruct (fetched_table_is_served_from_cache _ _ Sample.pd_DataFrame
              Sample.rename r cl st (DataFetcher.PFrame table) table)
    as (st1 & Hfirst & Hnext); [reflexivity|reflexivity|discriminate|
                                reflexivity|reflexivity|].
  exists st1. split; [exact Hfirst|]. intros cl2.
  apply Hnext; [reflexivity|reflexivity|].
  vm_compute in Hfirst. injection Hfirst as <-. reflexivity.
Defined.

(** ** The fetcher against the real client *)

Lemma JQuantsClient_lacks (T : Type) (cl : DataFetcher.client T) name :
  DataFetcher.is_JQuantsClient cl →
  name ∈ ["get_topix"; "get_trades_spec"; "get_statements";
          "get_announcement"] →
  DataFetcher.getattr cl name = None.
Proof.
  intros Hcl Hname.
  assert (bool_decide (name ∈ DataFetcher.JQuantsClient_attributes) = false
          ∧ String.prefix "__" name = false) as [Hnot Hplain].
  { repeat (apply elem_of_cons in Hname as [->|Hname];
            [split; vm_compute; reflexivity|]).
    by apply elem_of_nil in Hname. }
  apply bool_decide_eq_false in Hnot.
  destruct (DataFetcher.getattr cl name) as [method|] eqn:Hattr; [|done].
  destruct (Hcl name) as [Hin|Hdunder]; [by rewrite Hattr|done|congruence].
Qed.

(** X9. [fetch_topix], [fetch_trades_spec], [fetch_statements] and
    [fetch_announcement] call the client methods [get_topix],
    [get_trades_spec], [get_statements] and [get_announcement], none of
    which [JQuantsClient] has. With an instance of that class as client
    they therefore return the empty table whenever the cache does not
    already hold their key, and write nothing to the cache. *)
Theorem fetchers_of_missing_client_methods_return_empty :
  ∀ (T : Type) (F : Frame T)
    (pd_DataFrame : DataFetcher.pyobj T → Py.outcome T)
    (rename : list (string * string) → T → T)
    (r : DataFetcher.request) (cl : DataFetcher.client T)
    (st : DataFetcher.state T),
    DataFetcher.is_JQuantsClient cl →
    match r with
    | DataFetcher.Topix _ _ | DataFetcher.Trades_spec _ _
    | DataFetcher.Statements _ _ | DataFetcher.Announcement _ => True
    | _ => False
    end →
    (if DataFetcher.force_refresh_of r then @None T
     else (CacheManager.get (DataFetcher.clock st)
             (DataFetcher.cache_key (DataFetcher.endpoint_of r))
             (DataFetcher.cache st)).1) = None →
    ∃ st',
      DataFetcher.perform pd_DataFrame rename r cl st = (Py.Ret frame_new, st')
      ∧ DataFetcher.cache st'
        = DataFetcher.cache
            (DataFetcher.at_call (DataFetcher.endpoint_of r)
               (DataFetcher.force_refresh_of r) st)
      ∧ ∀ k, DataFetcher.cache st' !! k = None
             ∨ DataFetcher.cache st' !! k = DataFetcher.cache st !! k.
Proof.
  intros T F pd_DataFrame rename r cl st Hcl Hkind Hmiss.
  assert (DataFetcher.getattr cl
            (DataFetcher.method_name (DataFetcher.endpoint_of r)) = None)
    as Hattr.
  { apply JQuantsClient_lacks; [done|].
    destruct r; try done; simpl; set_solver. }
  rewrite perform_fetch. unfold DataFetcher.fetch, DataFetcher.at_call.
  set (lookup := if DataFetcher.force_refresh_of r then _ else _).
  assert (lookup.1 = None) as Hl1
    by (unfold lookup; by destruct (DataFetcher.force_refresh_of r)).
  assert ((if DataFetcher.force_refresh_of r then DataFetcher.cache st
           else (CacheManager.get (DataFetcher.clock st)
                   (DataFetcher.cache_key (DataFetcher.endpoint_of r))
                   (DataFetcher.cache st)).2) = lookup.2) as Hl2
    by (unfold lookup; by destruct (DataFetcher.force_refresh_of r)).
  rewrite Hl2, Hl1.
  unfold DataFetcher._make_api_call, DataFetcher.call_method.
  rewrite Hattr. cbn [Py.try_except]. eexists. split; [done|].
  split; [done|]. intros k. cbn [DataFetcher.cache DataFetcher._rate_limit].
  rewrite <-Hl2.
  destruct (DataFetcher.force_refresh_of r); [by right|].
  destruct (decide (DataFetcher.cache_key (DataFetcher.endpoint_of r) = k))
    as [<-|Hne]; [|right; by apply get_lookup_other].
  unfold CacheManager.get, CacheManager._remove_entry,
    CacheManager._sanitize_key.
  destruct (DataFetcher.cache st !! _) as [row|] eqn:Hrow;
    [|left; exact Hrow].
  case_bool_decide; simpl; [left; apply lookup_delete_eq|].
  destruct (CacheManager._deserialize_dataframe _); simpl;
    [right; exact Hrow|left; apply lookup_delete_eq].
Qed.

Lemma fetchers_of_missing_client_methods_return_empty_witness :
  let cl : DataFetcher.client (list WeeklyDataAggregator.DailyQuote) :=
    DataFetcher.Client
      (λ name, if bool_decide (name ∈ DataFetcher.JQuantsClient_attributes)
               then Some (λ _, Py.Ret (DataFetcher.PList [])) else None) in
  ∃ st',
    DataFetcher.perform Sample.pd_DataFrame Sample.rename
      (DataFetcher.Announcement false) cl (DataFetcher.State ∅ 0 5000000)
    = (Py.Ret [], st')
    ∧ DataFetcher.cache st' = ∅.
Proof.
  intros cl.
  destruct (fetchers_of_missing_client_methods_return_empty _ _
              Sample.pd_DataFrame Sample.rename
              (DataFetcher.Announcement false) cl
              (DataFetcher.State ∅ 0 5000000))
    as (st' & Hrun & Hcache & _).
  - intros name [method Hattr]. left. cbn in Hattr.
    by case_bool_decide.
  - exact I.
  - reflexivity.
  - exists st'. split; [exact Hrun|]. rewrite Hcache. reflexivity.
Defined.

(** ** The dates of a week and of the week before *)

Lemma weekday_sub d k :
  Date.weekday (d - k) = (Date.weekday d - k) mod 7.
Proof.
  unfold Date.weekday. rewrite Zminus_mod_idemp_l. f_equal; lia.
Qed.

Lemma weekday_cases d :
  Date.weekday d = 0 ∨ Date.weekday d = 1 ∨ Date.weekday d = 2
  ∨ Date.weekday d = 3 ∨ Date.weekday d = 4 ∨ Date.weekday d = 5
  ∨ Date.weekday d = 6.
Proof. pose proof (weekday_range d). lia. Qed.

Lemma sub_days_valid d n :
  Date.min_ordinal <= d - n <= Date.max_ordinal →
  Date.sub_days d n = Py.Ret (d - n).
Proof.
  intros Hr. unfold Date.sub_days.
  rewrite add_days_valid by lia. f_equal; lia.
Qed.

Lemma sub_days_overflow d n :
  d - n < Date.min_ordinal → Date.sub_days d n = Py.Raise Py.OverflowError.
Proof.
  intros Hr. unfold Date.sub_days, Date.add_days.
  rewrite bool_decide_eq_false_2 by lia. done.
Qed.

(** The trading days of a week that ends on a weekday. *)
Lemma get_week_trading_days_seqZ week_end :
  Date.valid week_end →
  WeeklyDataAggregator.get_week_trading_days week_end
  = Py.Ret (seqZ (week_end - Date.weekday week_end)
              (Z.min (Date.weekday week_end + 1) 5)).
Proof.
  intros Hvalid. rewrite get_week_trading_days_unfold by done.
  set (monday := week_end - Date.weekday week_end).
  f_equal.
  destruct (weekday_cases week_end) as [H|[H|[H|[H|[H|[H|H]]]]]];
    rewrite H; unfold seqZ;
    match goal with
    | |- map _ ?l = _ <$> seq 0 ?n =>
        let l' := eval vm_compute in l in
        let n' := eval vm_compute in n in
        change l with l'; change n with n'
    end;
    cbn [seq fmap list_fmap map];
    repeat (apply (f_equal2 cons); [lia|]); reflexivity.
Qed.

(** The day that [get_previous_week_end] goes back to. *)
Lemma get_previous_week_end_unfold week_end :
  WeeklyDataAggregator.get_previous_week_end week_end
  = Date.sub_days week_end
      (if bool_decide (Date.weekday week_end = 4) then 7
       else (Date.weekday week_end + 3) mod 7).
Proof.
  unfold WeeklyDataAggregator.get_previous_week_end.
  destruct (weekday_cases week_end) as [H|[H|[H|[H|[H|[H|H]]]]]];
    rewrite H; reflexivity.
Qed.

Lemma weekday_in_week week_end d :
  week_end - Date.weekday week_end <= d <= week_end →
  Date.weekday d = d - (week_end - Date.weekday week_end).
Proof.
  intros Hd. pose proof (weekday_range week_end) as Hwd.
  replace d with (week_end - Date.weekday week_end
                  + (d - (week_end - Date.weekday week_end))) at 1 by lia.
  apply weekday_after_monday. lia.
Qed.

(** X10. For every date [week_end], [get_week_trading_days] returns the
    dates from the Monday of the week of [week_end] up to [week_end]
    that are not a Saturday or a Sunday, in increasing order and each
    once: a date is in the list exactly when it lies between that Monday
    and [week_end] and is a weekday. *)
Theorem week_trading_days_are_the_weekdays_up_to_week_end :
  ∀ week_end : Z,
    Date.valid week_end →
    let monday := week_end - Date.weekday week_end in
    ∃ days,
      WeeklyDataAggregator.get_week_trading_days week_end = Py.Ret days
      ∧ days = seqZ monday (Z.min (Date.weekday week_end + 1) 5)
      ∧ Date.weekday monday = 0
      ∧ ∀ d, d ∈ days ↔ monday <= d <= week_end ∧ Date.weekday d < 5.
Proof.
  intros week_end Hvalid monday.
  pose proof (weekday_range week_end) as Hwd.
  eexists. split; [by apply get_week_trading_days_seqZ|].
  split; [done|]. split.
  { unfold monday. replace (week_end - Date.weekday week_end)
      with (week_end - Date.weekday week_end + 0) by lia.
    apply weekday_after_monday. lia. }
  intros d. rewrite elem_of_seqZ. fold monday. split.
  - intros Hd. assert (monday <= d <= week_end) as Hin by lia.
    split; [done|]. unfold monday in Hin.
    rewrite (weekday_in_week _ _ Hin). fold monday. lia.
  - intros [Hin Hday]. unfold monday in Hin.
    rewrite (weekday_in_week _ _ Hin) in Hday. fold monday in Hday, Hin.
    lia.
Qed.

Lemma week_trading_days_are_the_weekdays_up_to_week_end_witness :
  ∃ days,
    WeeklyDataAggregator.get_week_trading_days 738902 = Py.Ret days
    ∧ days = [738900; 738901; 738902]
    ∧ ∀ d, d ∈ days ↔ 738900 <= d <= 738902 ∧ Date.weekday d < 5.
Proof.
  destruct (week_trading_days_are_the_weekdays_up_to_week_end 738902)
    as (days & Hrun & Hdays & _ & Hmem).
  - unfold Date.valid, Date.min_ordinal, Date.max_ordinal. lia.
  - exists days. split; [exact Hrun|]. split; [exact Hdays|exact Hmem].
Defined.

(** X11. [get_previous_week_end] returns the last Friday strictly before
    [week_end]: a Friday, at most seven days earlier. For the first five
    dates of the calendar there is no such Friday and the subtraction
    raises [OverflowError]. *)
Theorem previous_week_end_is_the_last_friday_before :
  ∀ week_end : Z,
    Date.valid week_end →
    (week_end <= 5 →
     WeeklyDataAggregator.get_previous_week_end week_end
     = Py.Raise Py.OverflowError)
    ∧ (5 < week_end →
       ∃ friday,
         WeeklyDataAggregator.get_previous_week_end week_end
         = Py.Ret friday
         ∧ Date.weekday friday = 4
         ∧ week_end - 7 <= friday < week_end).
Proof.
  intros week_end Hvalid. unfold Date.valid, Date.min_ordinal,
    Date.max_ordinal in Hvalid.
  destruct (weekday_eucl week_end) as (q & Hq & Hwd).
  rewrite get_previous_week_end_unfold. split.
  - intros Hearly. apply sub_days_overflow. unfold Date.min_ordinal.
    destruct (weekday_cases week_end) as [H|[H|[H|[H|[H|[H|H]]]]]];
      rewrite H in *; vm_compute bool_decide; vm_compute Z.modulo; lia.
  - intros Hlate.
    destruct (weekday_cases week_end) as [H|[H|[H|[H|[H|[H|H]]]]]];
      rewrite H in *; vm_compute bool_decide; vm_compute Z.modulo;
      (eexists; split;
       [apply sub_days_valid;
        unfold Date.min_ordinal, Date.max_ordinal; lia|];
       split; [rewrite weekday_sub, H; reflexivity|lia]).
Qed.

Lemma previous_week_end_is_the_last_friday_before_witness :
  WeeklyDataAggregator.get_previous_week_end 3 = Py.Raise Py.OverflowError
  ∧ ∃ friday,
      WeeklyDataAggregator.get_previous_week_end 738902 = Py.Ret friday
      ∧ Date.weekday friday = 4
      ∧ 738902 - 7 <= friday < 738902.
Proof.
  split.
  - apply (previous_week_end_is_the_last_friday_before 3);
      unfold Date.valid, Date.min_ordinal, Date.max_ordinal; lia.
  - apply (previous_week_end_is_the_last_friday_before 738902);
      unfold Date.valid, Date.min_ordinal, Date.max_ordinal; lia.
Defined.
